(** * mkweather: the quiz validator, the tip generator and the forecast fetcher

    A shallow embedding of [main.py].  Python values that come from the
    network are kept dynamically typed (a [json] tree), Python exceptions are
    an explicit result type, floats are IEEE binary64 ([PrimFloat]), the Flask
    session is a record of optional fields, one per key the program uses, and
    the two HTTP collaborators are functions from the request to an optional
    response.  Library routines whose full behaviour is not in the repository
    ([datetime.strptime], [float] on text, the clock, the two catalogs of
    [places], and in the validator [str.strip] and [str.lower], whose result
    depends on the interpreter's Unicode tables) are section variables, so
    every theorem holds for all of them. *)

From Stdlib Require Import ZArith Lia Bool List Ascii String.
From Stdlib Require Import Floats.PrimFloat Floats.FloatOps Floats.SpecFloat.
From stdpp Require Import base option list strings gmap.

Local Open Scope string_scope.
Local Open Scope list_scope.
Local Open Scope Z_scope.
Local Set Warnings "-register-all".

(** ** Python results: a value or a raised exception *)

Module Py.

Inductive exn : Type :=
| KeyError | IndexError | TypeError | ValueError | AttributeError | OverflowError.

Inductive res (A : Type) : Type :=
| Ret (a : A)
| Raise (e : exn).
Arguments Ret {A} a.
Arguments Raise {A} e.

#[global] Instance res_ret : MRet res := fun A a => Ret a.
#[global] Instance res_bind : MBind res := fun A B f m =>
  match m with
  | Ret a => f a
  | Raise e => Raise e
  end.

End Py.
Import Py.

(** ** Text: the [in] test on strings, and [str.lower] on ASCII letters.
    A [str] is modelled by its UTF-8 bytes.  [lower] maps the ASCII capitals
    and leaves every other byte.  The tip generator applies it to any text,
    and only to search the result for five ASCII keywords: of the code
    points outside ASCII, two have a lowercase that holds an ASCII letter,
    U+212A with "k", which no keyword has, and U+0130 with "i" followed by
    a combining dot, which no keyword has either, so no keyword test
    depends on them.  The validator compares and stores the text it strips
    and lowers; there [str.strip] and [str.lower] are parameters. *)

Module Text.

Definition lower_char (c : ascii) : ascii :=
  let n := nat_of_ascii c in
  if ((65 <=? n) && (n <=? 90))%nat then ascii_of_nat (n + 32) else c.

Fixpoint lower (s : string) : string :=
  match s with
  | EmptyString => EmptyString
  | String c s' => String (lower_char c) (lower s')
  end.

(** [sub in s] *)
Fixpoint contains (sub s : string) : bool :=
  String.prefix sub s ||
  match s with
  | EmptyString => false
  | String _ s' => contains sub s'
  end.

(** Truth value of a [str]. *)
Definition nonempty (s : string) : bool :=
  match s with EmptyString => false | _ => true end.

End Text.
Import Text.

(** ** Numbers: Python [float] is binary64, Python [int] is unbounded *)

Module Num.

Definition fneg_zero : float := PrimFloat.opp PrimFloat.zero.

(** [float(z)] for an [int]: the nearest double, [OverflowError] when out of
    range. *)
Definition float_of_Z (z : Z) : res float :=
  match binary_normalize prec emax z 0 false with
  | S754_infinity _ => Raise OverflowError
  | sf => Ret (SF2Prim sf)
  end.

Definition float_of_bool (b : bool) : float :=
  if b then PrimFloat.one else PrimFloat.zero.

(** Comparison of a [float] with an [int]: Python compares the exact
    values; [None] when the float is a NaN. *)
Definition cmp_float_Z (x : float) (z : Z) : option comparison :=
  match Prim2SF x with
  | S754_nan => None
  | S754_infinity s => Some (if s then Lt else Gt)
  | S754_zero _ => Some (0 ?= z)
  | S754_finite s m e =>
      let v := if s then Z.neg m else Z.pos m in
      if 0 <=? e then Some (v * 2 ^ e ?= z) else Some (v ?= z * 2 ^ (- e))
  end.

(** [x <= z] *)
Definition fle_Z (x : float) (z : Z) : bool :=
  match cmp_float_Z x z with
  | Some Lt | Some Eq => true
  | _ => false
  end.

(** [x >= z] *)
Definition fge_Z (x : float) (z : Z) : bool :=
  match cmp_float_Z x z with
  | Some Gt | Some Eq => true
  | _ => false
  end.

(** Nearest integer to [n / d], ties to even ([0 <= n], [0 < d]). *)
Definition round_half_even (n d : Z) : Z :=
  let q := n / d in
  match 2 * (n mod d) ?= d with
  | Lt => q
  | Gt => q + 1
  | Eq => if Z.even q then q else q + 1
  end.

(** [round(x, 1)] on a [float]: the exact value of [x] is rounded to one
    decimal, ties to even, and the double nearest to that decimal is
    returned; NaN, the infinities and integral values are returned as they
    are, and a zero result keeps the sign of [x]. *)
Definition round1 (x : float) : float :=
  match Prim2SF x with
  | S754_finite s m e =>
      if 0 <=? e then x
      else
        match round_half_even (10 * Z.pos m) (2 ^ (- e)) with
        | Z.pos n =>
            SF2Prim (SFdiv prec emax (S754_finite s n 0) (S754_finite false 10 0))
        | _ => if s then fneg_zero else PrimFloat.zero
        end
  | _ => x
  end.

End Num.
Import Num.

(** ** Decoded JSON, as [response.json()] returns it *)

Module Json.

Inductive json : Type :=
| JNull
| JBool (b : bool)
| JInt (z : Z)
| JFloat (f : float)
| JStr (s : string)
| JList (l : list json)
| JObj (kv : list (string * json)).

(** The binding of a key in a decoded object (its keys are distinct). *)
Fixpoint assoc (k : string) (kv : list (string * json)) : option json :=
  match kv with
  | [] => None
  | (k', v) :: kv' => if String.eqb k k' then Some v else assoc k kv'
  end.

(** [v[k]] with a [str] key *)
Definition getitem (v : json) (k : string) : res json :=
  match v with
  | JObj kv => match assoc k kv with Some x => Ret x | None => Raise KeyError end
  | _ => Raise TypeError
  end.

(** [v[0]] *)
Definition getitem0 (v : json) : res json :=
  match v with
  | JList (x :: _) => Ret x
  | JList [] => Raise IndexError
  | JStr (String c _) => Ret (JStr (String c EmptyString))
  | JStr EmptyString => Raise IndexError
  | JObj _ => Raise KeyError
  | _ => Raise TypeError
  end.

(** [v.get(k)]: only a [dict] has the method. *)
Definition get (v : json) (k : string) : res (option json) :=
  match v with
  | JObj kv => Ret (assoc k kv)
  | _ => Raise AttributeError
  end.

(** [v.get(k, d)] *)
Definition get_default (v : json) (k : string) (d : json) : res json :=
  o ← get v k; Ret (default d o).

(** Truth value, as [if not v] tests it. *)
Definition truthy (v : json) : bool :=
  match v with
  | JNull => false
  | JBool b => b
  | JInt z => negb (z =? 0)
  | JFloat f => negb (PrimFloat.eqb f PrimFloat.zero)
  | JStr s => nonempty s
  | JList l => match l with [] => false | _ => true end
  | JObj kv => match kv with [] => false | _ => true end
  end.

Fixpoint chars (s : string) : list json :=
  match s with
  | EmptyString => []
  | String c s' => JStr (String c EmptyString) :: chars s'
  end.

(** The items a [for] loop over [v] visits. *)
Definition iter (v : json) : res (list json) :=
  match v with
  | JList l => Ret l
  | JObj kv => Ret (map (fun p => JStr (fst p)) kv)
  | JStr s => Ret (chars s)
  | _ => Raise TypeError
  end.

(** [v.lower()]: only a [str] has the method; [lower] is [str.lower]. *)
Definition lower_method (lower : string -> string) (v : json) : res string :=
  match v with
  | JStr s => Ret (lower s)
  | _ => Raise AttributeError
  end.

(** [v] as the left operand of float arithmetic. *)
Definition as_float (v : json) : res float :=
  match v with
  | JFloat f => Ret f
  | JInt z => float_of_Z z
  | JBool b => Ret (float_of_bool b)
  | _ => Raise TypeError
  end.

End Json.
Import Json.

(** ** HTTP: what [requests.get] hands back *)

Module Http.

(** A response: its status and its body, [None] when the body is not JSON. *)
Record Response : Type := { status_code : Z; body : option json }.

(** [raise_for_status] raises on 4xx and 5xx. *)
Definition raise_for_status (r : Response) : bool :=
  (400 <=? status_code r) && (status_code r <? 600).

(** The guarded block
    [response = requests.get(..); response.raise_for_status(); response.json()]:
    [None] when any of the three raises.  The argument is [None] when
    [requests.get] itself raised (connection error, timeout). *)
Definition fetch_json (r : option Response) : option json :=
  match r with
  | None => None
  | Some resp => if raise_for_status resp then None else body resp
  end.

End Http.
Import Http.

(** ** Activity tips *)

Module Tips.

(** [tips.append(x)] *)
Definition append (tips : list string) (x : string) : list string := tips ++ [x].

Definition get_activity_tips (temp_f : float) (description : string)
    (user_hot user_cold : option Z) : list string :=
  let desc := lower description in
  let tips := [] in
  (* Check cold first, then hot, then neutral *)
  let tips :=
    if match user_cold with Some c => fle_Z temp_f c | None => false end then
      append (append tips "Bundle up/Wear warm clothes") "Limit time outdoors"
    else if match user_hot with Some h => fge_Z temp_f h | None => false end then
      append (append tips "Stay hydrated") "Avoid peak sun hours"
    else
      append tips "Comfortable for outdoor activities" in
  (* Condition-based tips *)
  let tips := if contains "rain" desc then append tips "Bring an umbrella" else tips in
  let tips := if contains "snow" desc then append tips "Drive carefully" else tips in
  let tips :=
    if contains "wind" desc then append tips "Windy — secure loose items" else tips in
  let tips :=
    if contains "storm" desc || contains "thunder" desc
    then append tips "Stay indoors if possible" else tips in
  tips.

End Tips.
Import Tips.

(** ** The forecast fetcher *)

Module Forecast.

Record date : Type := { year : Z; month : Z; day : Z }.

#[global] Instance date_eq_dec : EqDecision date.
Proof. solve_decision. Defined.

(** What [datetime.strptime] returns; [dt_date] is [dt.date()]. *)
Record datetime : Type := { dt_date : date; hour : Z; minute : Z; second : Z }.

(** One value of the [forecasts] dict. *)
Record ForecastDay : Type := {
  fd_date : date;
  fd_temp_f : float;
  fd_description : json;
  fd_icon : option json;
  fd_tips : list string
}.

(** [forecasts]: a dict keyed by date, in insertion order. *)
Definition dict : Type := list (date * ForecastDay).

Definition keys (d : dict) : list date := map fst d.
Definition values (d : dict) : list ForecastDay := map snd d.

(** [k in forecasts] *)
Definition dict_mem (k : date) (d : dict) : bool := bool_decide (k ∈ keys d).

(** [forecasts[k] = v]: a present key keeps its place, a new one goes last. *)
Fixpoint dict_set (k : date) (v : ForecastDay) (d : dict) : dict :=
  match d with
  | [] => [(k, v)]
  | (k', v') :: d' =>
      if bool_decide (k' = k) then (k', v) :: d' else (k', v') :: dict_set k v d'
  end.

(** [len(forecasts)] *)
Definition len (d : dict) : Z := Z.of_nat (length d).

#[local] Set Warnings "-inexact-float".
Definition kelvin_offset : float := 273.15%float.
#[local] Set Warnings "inexact-float".

Section Fetcher.

(** [datetime.strptime(s, "%Y-%m-%d %H:%M:%S")]; [None] is [ValueError]. *)
Variable strptime : string -> option datetime.
(** [date.today()] *)
Variable today : date.
(** [requests.get] on the forecast endpoint with [lat], [lon], [appid];
    [None] when the call raises. *)
Variable forecast_api : float -> float -> option string -> option Response.

Variables user_hot user_cold : option Z.
Variable max_days : Z.

(** [strptime] wants a [str]. *)
Definition call_strptime (v : json) : res datetime :=
  match v with
  | JStr s => match strptime s with Some dt => Ret dt | None => Raise ValueError end
  | _ => Raise TypeError
  end.

(** [get_activity_tips(temp_f, description, ..)] on a decoded value:
    [description.lower()] needs a [str]. *)
Definition call_get_activity_tips (temp_f : float) (description : json)
  : res (list string) :=
  match description with
  | JStr s => Ret (get_activity_tips temp_f s user_hot user_cold)
  | _ => Raise AttributeError
  end.

(** Lines 203-204: the calendar date of an entry. *)
Definition entry_date (entry : json) : res date :=
  dt_txt ← getitem entry "dt_txt";
  dt ← call_strptime dt_txt;
  Ret (dt_date dt).

(** Lines 210-222: the value stored for an entry that is kept. *)
Definition forecast_day (entry : json) (dt_date : date) : res ForecastDay :=
  main ← getitem entry "main";
  temp_k ← getitem main "temp";
  k ← as_float temp_k;
  let temp_f :=
    round1 (PrimFloat.add
              (PrimFloat.div (PrimFloat.mul (PrimFloat.sub k kelvin_offset) 9%float)
                             5%float)
              32%float) in
  weather_list ← getitem entry "weather";
  weather ← getitem0 weather_list;
  description ← getitem weather "description";
  icon ← get weather "icon";
  tips ← call_get_activity_tips temp_f description;
  Ret {| fd_date := dt_date; fd_temp_f := temp_f; fd_description := description;
         fd_icon := icon; fd_tips := tips |}.

(** The [for] loop of lines 202-225, with its [continue] and [break]. *)
Fixpoint loop (entries : list json) (forecasts : dict) : res dict :=
  match entries with
  | [] => Ret forecasts
  | entry :: rest =>
      dt_date ← entry_date entry;
      (* Skip today and duplicates *)
      if bool_decide (dt_date = today) || dict_mem dt_date forecasts then
        loop rest forecasts
      else
        fd ← forecast_day entry dt_date;
        let forecasts := dict_set dt_date fd forecasts in
        if len forecasts >=? max_days then Ret forecasts else loop rest forecasts
  end.

(** [None] is the unavailable sentinel. *)
Definition get_forecast (lat lon : float) (api_key : option string)
  : res (option (list ForecastDay)) :=
  match fetch_json (forecast_api lat lon api_key) with
  | None => Ret None
  | Some data =>
      lst ← get_default data "list" (JList []);
      entries ← iter lst;
      forecasts ← loop entries [];
      Ret (Some (values forecasts))
  end.

End Fetcher.

End Forecast.
Import Forecast.

(** ** The quiz form validator *)

Module Quiz.

(** The submitted values, as the framework hands them to [validate]:
    [state_data] is [None] when the field was not submitted. *)
Record FormData : Type := {
  country_data : string;
  state_data : option string;
  city_data : string;
  user_hot_data : Z;
  user_cold_data : Z
}.

(** The Flask session: one optional field per key the program uses. *)
Record Session : Type := {
  s_lat : option float;
  s_lon : option float;
  s_city : option string;
  s_country : option string;
  s_state : option string;
  s_user_hot : option Z;
  s_user_cold : option Z
}.

Definition empty_session : Session :=
  {| s_lat := None; s_lon := None; s_city := None; s_country := None;
     s_state := None; s_user_hot := None; s_user_cold := None |}.

(** The [errors] lists of the three fields [validate] writes to. *)
Record Errors : Type := {
  state_errors : list string;
  user_hot_errors : list string;
  city_errors : list string
}.

Definition no_errors : Errors :=
  {| state_errors := []; user_hot_errors := []; city_errors := [] |}.

(** What [validate] can change: the field errors, the session, and the
    queries sent to the geocoder so far. *)
Record St : Type := { errors : Errors; session : Session; requests : list string }.

Definition initial (sess : Session) : St :=
  {| errors := no_errors; session := sess; requests := [] |}.

(** A statement of the method body either falls through to the next one
    or leaves the method, with [return b] or with an exception. *)
Inductive flow (A : Type) : Type :=
| Next (a : A) (st : St)
| Done (r : res bool) (st : St).
Arguments Next {A} a st.
Arguments Done {A} r st.

Definition M (A : Type) : Type := St -> flow A.

#[global] Instance M_ret : MRet M := fun A a st => Next a st.
#[global] Instance M_bind : MBind M := fun A B f m st =>
  match m st with
  | Next a st' => f a st'
  | Done r st' => Done r st'
  end.

(** [return b] *)
Definition return_ {A} (b : bool) : M A := fun st => Done (Ret b) st.

(** An expression that may raise. *)
Definition eval {A} (r : res A) : M A := fun st =>
  match r with
  | Ret a => Next a st
  | Raise e => Done (Raise e) st
  end.

(** [if b: body] *)
Definition when (b : bool) (body : M unit) : M unit :=
  if b then body else mret tt.

(** [try: body except <caught>: handler]; what [body] did to the state
    before it raised stays done. *)
Definition try_except {A} (body : M A) (caught : exn -> bool) (handler : M A) : M A :=
  fun st =>
    match body st with
    | Done (Raise e) st' => if caught e then handler st' else Done (Raise e) st'
    | r => r
    end.

Definition update_errors (f : Errors -> Errors) : M unit := fun st =>
  Next tt {| errors := f (errors st); session := session st; requests := requests st |}.

Definition update_session (f : Session -> Session) : M unit := fun st =>
  Next tt {| errors := errors st; session := f (session st); requests := requests st |}.

(** [self.state.errors.append(msg)] *)
Definition state_errors_append (msg : string) : M unit :=
  update_errors (fun e =>
    {| state_errors := state_errors e ++ [msg];
       user_hot_errors := user_hot_errors e; city_errors := city_errors e |}).

(** [self.user_hot.errors.append(msg)] *)
Definition user_hot_errors_append (msg : string) : M unit :=
  update_errors (fun e =>
    {| state_errors := state_errors e;
       user_hot_errors := user_hot_errors e ++ [msg]; city_errors := city_errors e |}).

(** [self.city.errors.append(msg)] *)
Definition city_errors_append (msg : string) : M unit :=
  update_errors (fun e =>
    {| state_errors := state_errors e; user_hot_errors := user_hot_errors e;
       city_errors := city_errors e ++ [msg] |}).

(** [session["lat"] = v] and the like *)
Definition set_lat (v : float) : M unit :=
  update_session (fun s =>
    {| s_lat := Some v; s_lon := s_lon s; s_city := s_city s; s_country := s_country s;
       s_state := s_state s; s_user_hot := s_user_hot s; s_user_cold := s_user_cold s |}).
Definition set_lon (v : float) : M unit :=
  update_session (fun s =>
    {| s_lat := s_lat s; s_lon := Some v; s_city := s_city s; s_country := s_country s;
       s_state := s_state s; s_user_hot := s_user_hot s; s_user_cold := s_user_cold s |}).
Definition set_city (v : string) : M unit :=
  update_session (fun s =>
    {| s_lat := s_lat s; s_lon := s_lon s; s_city := Some v; s_country := s_country s;
       s_state := s_state s; s_user_hot := s_user_hot s; s_user_cold := s_user_cold s |}).
Definition set_country (v : string) : M unit :=
  update_session (fun s =>
    {| s_lat := s_lat s; s_lon := s_lon s; s_city := s_city s; s_country := Some v;
       s_state := s_state s; s_user_hot := s_user_hot s; s_user_cold := s_user_cold s |}).
Definition set_state (v : string) : M unit :=
  update_session (fun s =>
    {| s_lat := s_lat s; s_lon := s_lon s; s_city := s_city s; s_country := s_country s;
       s_state := Some v; s_user_hot := s_user_hot s; s_user_cold := s_user_cold s |}).

Definition USA : string := "United States of America".

(** Lines 90-93: the geocoder query. *)
Definition build_query (city state country : string) : string :=
  let query := city in
  let query := if String.eqb country USA then query +:+ ", " +:+ state else query in
  let query := query +:+ ", " +:+ country in
  query.

(** [self.state.data.strip() if self.state.data else ""]; [strip] is
    [str.strip]. *)
Definition state_value (strip : string -> string) (data : option string) : string :=
  match data with
  | Some s => if nonempty s then strip s else ""
  | None => ""
  end.

Definition KeyError_or_ValueError (e : exn) : bool :=
  match e with KeyError | ValueError => true | _ => false end.

Section Validator.

(** [str.strip] and [str.lower], as the interpreter defines them. *)
Variable strip : string -> string.
Variable lower : string -> string.
(** The catalogs of [places]. *)
Variable us_cities : gmap string (list string).
Variable COUNTRY_TO_ISO : gmap string string.
(** [float(s)] on a [str]; [None] is [ValueError]. *)
Variable float_of_str : string -> option float.
(** [requests.get] on the geocoding endpoint with query [q], limit 5 and
    address details; [None] when the call raises. *)
Variable geocoder : string -> option Response.
(** The verdict of [super().validate(extra_validators)], the framework's
    own field checks. *)
Variable super_validate : bool.

(** [float(v)] on a decoded value. *)
Definition float_ (v : json) : res float :=
  match v with
  | JStr s => match float_of_str s with Some f => Ret f | None => Raise ValueError end
  | JFloat f => Ret f
  | JInt z => float_of_Z z
  | JBool b => Ret (float_of_bool b)
  | _ => Raise TypeError
  end.

(** The guarded geocoder call of lines 104-112. *)
Definition requests_get (query : string) : M (option json) := fun st =>
  Next (fetch_json (geocoder query))
       {| errors := errors st; session := session st;
          requests := requests st ++ [query] |}.

(** Lines 142-153, the STORE IN SESSION block. *)
Definition store_in_session (geo_data : json) (city country state : string)
  : M unit :=
  try_except
    (first ← eval (getitem0 geo_data);
     lat ← eval (getitem first "lat");
     lat ← eval (float_ lat);
     set_lat lat;;
     first ← eval (getitem0 geo_data);
     lon ← eval (getitem first "lon");
     lon ← eval (float_ lon);
     set_lon lon;;
     set_city city;;
     set_country country;;
     set_state state)
    KeyError_or_ValueError
    (city_errors_append "Error storing location coordinates.";;
     return_ false).

Definition validate_body (form : FormData) : M unit :=
  when (negb super_validate) (return_ false);;

  let city := strip (city_data form) in
  let country := strip (country_data form) in
  let state := state_value strip (state_data form) in

  (* ---------------- USA STATE RULE ---------------- *)
  (if String.eqb country USA then
     when (negb (nonempty state))
       (state_errors_append "Please select a U.S. state.";; return_ false)
   else
     when (nonempty state)
       (state_errors_append "State should only be selected for the United States.";;
        return_ false));;

  (* ---------------- TEMPERATURE RULE ---------------- *)
  when (user_hot_data form <=? user_cold_data form)
    (user_hot_errors_append "Hot temperature must be greater than Cold temperature.";;
     return_ false);;

  (* ---------------- USA CITY <-> STATE CHECK ---------------- *)
  when (String.eqb country USA)
    (let valid_cities := default [] (us_cities !! state) in
     when (negb (bool_decide (city ∈ valid_cities)))
       (city_errors_append
          (city +:+ " is not a valid city in " +:+ state +:+ ". " +:+
           "If it is, enter the nearest major city.");;
        return_ false));;

  (* ---------------- GEOCODING ---------------- *)
  let query := build_query city state country in

  fetched ← requests_get query;
  geo_data ←
    match fetched with
    | Some geo_data => mret geo_data
    | None =>
        city_errors_append "Error validating location. Please try again.";;
        return_ false
    end;

  when (negb (truthy geo_data))
    (city_errors_append (city +:+ " not found in " +:+ country +:+ ".");;
     return_ false);;

  first ← eval (getitem0 geo_data);
  address ← eval (get_default first "address" (JObj []));
  code ← eval (get_default address "country_code" (JStr ""));
  geo_country_code ← eval (lower_method lower code);
  geo_country_name ← eval (get_default address "country" (JStr "Unknown"));
  a_city ← eval (get address "city");
  a_town ← eval (if from_option truthy false a_city then mret a_city
                 else get address "town");
  let resolved_city :=
    if from_option truthy false a_town then a_town else Some (JStr city) in
  let expected_code := COUNTRY_TO_ISO !! strip country in

  when (negb (String.eqb country USA))
    (when (negb (from_option nonempty false expected_code))
       (city_errors_append "Country validation configuration error.";;
        return_ false);;
     when (negb (bool_decide (Some geo_country_code = expected_code)))
       (city_errors_append (city +:+ " is not a city in " +:+ country +:+ ". ");;
        return_ false));;

  store_in_session geo_data city country state;;

  return_ true.

(** [validate]: the value returned (or the exception raised) and the
    state the call leaves behind. *)
Definition validate (form : FormData) (st : St) : res bool * St :=
  match validate_body form st with
  | Done r st' => (r, st')
  | Next _ st' => (Ret true, st')
  end.

End Validator.

End Quiz.
Import Quiz.

(** ** The results handler *)

Module Routes.

(** The [weather_data] view model. *)
Record WeatherData : Type := {
  wd_state : option string;
  wd_city : option string;
  wd_country : option string;
  wd_forecast : list ForecastDay
}.

(** The context handed to [render_template("results.html", ..)]. *)
Record Rendered : Type := {
  weather : option WeatherData;
  ctx_user_hot : option Z;
  ctx_user_cold : option Z;
  error : option string
}.

Section Handlers.

Variable strptime : string -> option datetime.
Variable today : date.
Variable forecast_api : float -> float -> option string -> option Response.
(** [os.environ.get("API_KEY")] *)
Variable API_KEY : option string.

Definition results (sess : Session) : res Rendered :=
  match s_lat sess, s_lon sess with
  | Some lat, Some lon =>
      forecast ← get_forecast strptime today forecast_api
                    (s_user_hot sess) (s_user_cold sess) 5 lat lon API_KEY;
      match forecast with
      | None =>
          Ret {| weather := None; ctx_user_hot := None; ctx_user_cold := None;
                 error := Some "Could not fetch weather data. Try again later." |}
      | Some forecast =>
          let weather_data :=
            {| wd_state := s_state sess; wd_city := s_city sess;
               wd_country := s_country sess; wd_forecast := forecast |} in
          Ret {| weather := Some weather_data; ctx_user_hot := s_user_hot sess;
                 ctx_user_cold := s_user_cold sess; error := None |}
      end
  | _, _ =>
      Ret {| weather := None; ctx_user_hot := None; ctx_user_cold := None;
             error := Some "Location could not be validated. Please try again." |}
  end.

End Handlers.

(** What the quiz handler answers: a redirect, or the form page with the
    field errors. *)
Inductive Reply : Type :=
| Redirect (endpoint : string)
| Index (form : FormData) (form_errors : Errors).

(** [session["user_hot"] = hot; session["user_cold"] = cold] *)
Definition set_thresholds (hot cold : Z) (s : Session) : Session :=
  {| s_lat := s_lat s; s_lon := s_lon s; s_city := s_city s; s_country := s_country s;
     s_state := s_state s; s_user_hot := Some hot; s_user_cold := Some cold |}.

Section QuizHandler.

Variable strip : string -> string.
Variable lower : string -> string.
Variable us_cities : gmap string (list string).
Variable COUNTRY_TO_ISO : gmap string string.
Variable float_of_str : string -> option float.
Variable geocoder : string -> option Response.
Variable super_validate : bool.
(** [form.is_submitted()]: the request is a POST. *)
Variable is_submitted : bool.

(** [home]: what it answers (or raises), and the session and the geocoder
    queries it leaves behind.  [validate_on_submit] is
    [is_submitted() and validate()]. *)
Definition home (form : FormData) (sess : Session) : res Reply * St :=
  if is_submitted then
    match validate strip lower us_cities COUNTRY_TO_ISO float_of_str geocoder super_validate
                   form (initial sess) with
    | (Ret true, st) =>
        (Ret (Redirect "results"),
         {| errors := errors st;
            session := set_thresholds (user_hot_data form) (user_cold_data form)
                                      (session st);
            requests := requests st |})
    | (Ret false, st) => (Ret (Index form (errors st)), st)
    | (Raise e, st) => (Raise e, st)
    end
  else (Ret (Index form no_errors), initial sess).

End QuizHandler.

End Routes.
Import Routes.

(** ** Shapes of the forecast payload and the words of the specification *)

Module Shape.

Section Shape.

Variable strptime : string -> option datetime.

(** An entry carries a timestamp string in the expected format. *)
Definition has_timestamp (entry : json) : bool :=
  match getitem entry "dt_txt" with
  | Ret (JStr s) => bool_decide (is_Some (strptime s))
  | _ => false
  end.

(** A JSON number that is a Python [float] or an [int] in float range. *)
Definition is_temperature (v : json) : bool :=
  match v with
  | JFloat _ => true
  | JInt z => match float_of_Z z with Ret _ => true | Raise _ => false end
  | _ => false
  end.

(** An entry carries a temperature under [main]. *)
Definition has_temperature (entry : json) : bool :=
  match getitem entry "main" with
  | Ret main =>
      match getitem main "temp" with
      | Ret t => is_temperature t
      | Raise _ => false
      end
  | Raise _ => false
  end.

(** An entry carries a weather descriptor: a non-empty list whose first
    element is an object with a description string (the icon is optional). *)
Definition has_weather (entry : json) : bool :=
  match getitem entry "weather" with
  | Ret (JList (JObj w :: _)) =>
      match assoc "description" w with
      | Some (JStr _) => true
      | _ => false
      end
  | _ => false
  end.

Definition well_formed_entry (entry : json) : bool :=
  has_timestamp entry && has_temperature entry && has_weather entry.

(** A well-formed payload: an object whose entry list, when present, is a
    list of well-formed entries. *)
Definition well_formed_payload (data : json) : bool :=
  match data with
  | JObj kv =>
      match assoc "list" kv with
      | None => true
      | Some (JList l) => forallb well_formed_entry l
      | Some _ => false
      end
  | _ => false
  end.

Variables user_hot user_cold : option Z.

(** The dated item an entry stands for: its calendar date and the value
    the fetcher stores for it. *)
Definition dated_by (entry : json) (p : date * ForecastDay) : Prop :=
  entry_date strptime entry = Ret p.1
  /\ forecast_day user_hot user_cold entry p.1 = Ret p.2.

End Shape.

(** The entry list of a payload. *)
Definition entries_of (data : json) : list json :=
  match data with
  | JObj kv => match assoc "list" kv with Some (JList l) => l | _ => [] end
  | _ => []
  end.

(** Chronological order of calendar dates. *)
Definition date_ltb (a b : date) : bool :=
  (year a <? year b)
  || ((year a =? year b)
      && ((month a <? month b) || ((month a =? month b) && (day a <? day b)))).

(** The specification's selection rule on a list of dated items: an item is
    kept when its date is not in [seen]; its date is then seen. *)
Fixpoint first_per_date {A} (seen : list date) (l : list (date * A)) : list (date * A) :=
  match l with
  | [] => []
  | p :: r =>
      if bool_decide (p.1 ∈ seen) then first_per_date seen r
      else p :: first_per_date (p.1 :: seen) r
  end.

(** The specification's conversion: (K - 273.15) * 9/5 + 32. *)
Definition kelvin_to_fahrenheit (k : float) : float :=
  (PrimFloat.add
     (PrimFloat.div (PrimFloat.mul (PrimFloat.sub k kelvin_offset) 9%float) 5%float)
     32%float).

(** The specification's buckets and condition tips. *)
Definition cold_bucket : list string :=
  ["Bundle up/Wear warm clothes"; "Limit time outdoors"].
Definition hot_bucket : list string := ["Stay hydrated"; "Avoid peak sun hours"].
Definition comfortable_bucket : list string := ["Comfortable for outdoor activities"].

Definition is_cold (temp_f : float) (user_cold : option Z) : bool :=
  match user_cold with Some c => fle_Z temp_f c | None => false end.
Definition is_hot (temp_f : float) (user_hot : option Z) : bool :=
  match user_hot with Some h => fge_Z temp_f h | None => false end.

Definition bucket_tips (temp_f : float) (user_hot user_cold : option Z) : list string :=
  if is_cold temp_f user_cold then cold_bucket
  else if is_hot temp_f user_hot then hot_bucket
  else comfortable_bucket.

Definition tip_if (b : bool) (tip : string) : list string := if b then [tip] else [].

Definition condition_tips (desc : string) : list string :=
  tip_if (contains "rain" desc) "Bring an umbrella"
  ++ tip_if (contains "snow" desc) "Drive carefully"
  ++ tip_if (contains "wind" desc) "Windy — secure loose items"
  ++ tip_if (contains "storm" desc || contains "thunder" desc) "Stay indoors if possible".

(** The state [validate] leaves behind when it appends one error. *)
Definition with_state_error (st : St) (msg : string) : St :=
  {| errors := {| state_errors := state_errors (errors st) ++ [msg];
                  user_hot_errors := user_hot_errors (errors st);
                  city_errors := city_errors (errors st) |};
     session := session st; requests := requests st |}.

Definition with_user_hot_error (st : St) (msg : string) : St :=
  {| errors := {| state_errors := state_errors (errors st);
                  user_hot_errors := user_hot_errors (errors st) ++ [msg];
                  city_errors := city_errors (errors st) |};
     session := session st; requests := requests st |}.

Definition with_city_error (st : St) (msg : string) : St :=
  {| errors := {| state_errors := state_errors (errors st);
                  user_hot_errors := user_hot_errors (errors st);
                  city_errors := city_errors (errors st) ++ [msg] |};
     session := session st; requests := requests st |}.

(** The state after one geocoder call. *)
Definition with_request (st : St) (query : string) : St :=
  {| errors := errors st; session := session st; requests := requests st ++ [query] |}.

(** The country code of the first result of a geocode answer of the expected
    shape (a non-empty list whose first element is an object); an absent
    address or country code counts as the empty code. *)
Definition first_country_code (geo_data : json) : option string :=
  match geo_data with
  | JList (JObj first :: _) =>
      match assoc "address" first with
      | None => Some ""
      | Some (JObj address) =>
          match assoc "country_code" address with
          | None => Some ""
          | Some (JStr code) => Some code
          | Some _ => None
          end
      | Some _ => None
      end
  | _ => None
  end.

(** The country cross-check failed: [validate] returned [False] and appended
    to the city field a message containing "not a city in <country>". *)
Definition cross_check_failed (country : string) (before : St) (out : res bool * St)
  : Prop :=
  out.1 = Ret false
  /\ exists msg, city_errors (errors out.2) = city_errors (errors before) ++ [msg]
                 /\ contains ("not a city in " +:+ country) msg = true.

End Shape.
Import Shape.

(** ** Executable instances of the library routines, on plain ASCII text *)

Module Concrete.

(** [str.strip] on ASCII text: the ASCII characters for which [str.isspace]
    holds are removed at both ends. *)
Definition is_space (c : ascii) : bool :=
  let n := nat_of_ascii c in
  (((9 <=? n) && (n <=? 13)) || ((28 <=? n) && (n <=? 32)))%nat.

Fixpoint lstrip (s : string) : string :=
  match s with
  | EmptyString => EmptyString
  | String c s' => if is_space c then lstrip s' else s
  end.

Fixpoint rstrip (s : string) : string :=
  match s with
  | EmptyString => EmptyString
  | String c s' =>
      match rstrip s' with
      | EmptyString => if is_space c then EmptyString else String c EmptyString
      | t => String c t
      end
  end.

Definition strip (s : string) : string := rstrip (lstrip s).

(** [str.lower] on ASCII text. *)
Definition lower : string -> string := Text.lower.

Definition digit (c : ascii) : option Z :=
  let n := nat_of_ascii c in
  if ((48 <=? n) && (n <=? 57))%nat then Some (Z.of_nat n - 48) else None.

(** A non-empty run of decimal digits. *)
Fixpoint digits_from (acc : Z) (s : string) : option Z :=
  match s with
  | EmptyString => Some acc
  | String c s' =>
      match digit c with
      | Some d => digits_from (10 * acc + d) s'
      | None => None
      end
  end.

Definition number (s : string) : option Z :=
  match s with
  | EmptyString => None
  | _ => digits_from 0 s
  end.

Definition is_leap (y : Z) : bool :=
  ((y mod 4 =? 0) && negb (y mod 100 =? 0)) || (y mod 400 =? 0).

Definition days_in_month (y m : Z) : Z :=
  if m =? 2 then (if is_leap y then 29 else 28)
  else if (m =? 4) || (m =? 6) || (m =? 9) || (m =? 11) then 30
  else 31.

(** [strptime] on the fixed-width form [YYYY-MM-DD HH:MM:SS]. *)
Definition strptime (s : string) : option datetime :=
  if negb (String.length s =? 19)%nat then None
  else if negb (String.eqb (substring 4 1 s) "-" && String.eqb (substring 7 1 s) "-"
                && String.eqb (substring 10 1 s) " "
                && String.eqb (substring 13 1 s) ":"
                && String.eqb (substring 16 1 s) ":") then None
  else
    y ← number (substring 0 4 s);
    m ← number (substring 5 2 s);
    d ← number (substring 8 2 s);
    hh ← number (substring 11 2 s);
    mm ← number (substring 14 2 s);
    ss ← number (substring 17 2 s);
    if (1 <=? y) && (1 <=? m) && (m <=? 12) && (1 <=? d) && (d <=? days_in_month y m)
       && (hh <? 24) && (mm <? 60) && (ss <? 60)
    then Some {| dt_date := {| year := y; month := m; day := d |};
                 hour := hh; minute := mm; second := ss |}
    else None.

(** The double nearest to [n / 10^k], with the sign given. *)
Definition decimal (neg : bool) (n : Z) (k : nat) : float :=
  match n with
  | Z.pos p =>
      SF2Prim (SFdiv prec emax (S754_finite neg p 0)
                     (S754_finite false (Z.to_pos (10 ^ Z.of_nat k)) 0))
  | _ => if neg then fneg_zero else PrimFloat.zero
  end.

Fixpoint split_dot (s : string) : string * option string :=
  match s with
  | EmptyString => (EmptyString, None)
  | String c s' =>
      if Ascii.eqb c "." then (EmptyString, Some s')
      else let '(a, b) := split_dot s' in (String c a, b)
  end.

Definition unsigned_decimal (neg : bool) (s : string) : option float :=
  match split_dot s with
  | (ip, None) => n ← number ip; Some (decimal neg n 0)
  | (ip, Some fp) =>
      match number (ip +:+ fp) with
      | Some n =>
          match fp with
          | EmptyString => Some (decimal neg n 0)
          | _ => Some (decimal neg n (String.length fp))
          end
      | None => None
      end
  end.

(** [float] on a decimal literal [[+-]digits[.digits]], white space around
    it ignored; anything else is refused. *)
Definition float_of_str (s : string) : option float :=
  match strip s with
  | String "-" s' => unsigned_decimal true s'
  | String "+" s' => unsigned_decimal false s'
  | s' => unsigned_decimal false s'
  end.

End Concrete.

(** ** Sample data: forecast payloads and a collaborator that serves them *)

Module Scenario.

#[local] Set Warnings "-inexact-float".

Definition today : date := {| year := 2024; month := 6; day := 1 |}.

Definition lat : float := 48.8566%float.
Definition lon : float := 2.3522%float.

(** One 3-hour interval entry. *)
Definition entry (dt_txt : string) (temp : json) (description : string) : json :=
  JObj [("dt_txt", JStr dt_txt);
        ("main", JObj [("temp", temp); ("humidity", JInt 60)]);
        ("weather", JList [JObj [("description", JStr description);
                                 ("icon", JStr "10d")]])].

(** A collaborator that answers 200 with the given payload. *)
Definition serves (data : json) : float -> float -> option string -> option Response :=
  fun _ _ _ => Some {| status_code := 200; body := Some data |}.

Definition last_entry : json := entry "2024-06-07 00:00:00" (JFloat 291.02) "clear sky".

(** Today, then six later dates; 2 June occurs twice. *)
Definition week : json :=
  JObj [("cod", JStr "200");
        ("list", JList [entry "2024-06-01 21:00:00" (JFloat 295.15) "clear sky";
                        entry "2024-06-02 00:00:00" (JFloat 300) "light rain";
                        entry "2024-06-02 03:00:00" (JFloat 290.4) "overcast clouds";
                        entry "2024-06-03 00:00:00" (JInt 280) "snow";
                        entry "2024-06-04 00:00:00" (JFloat 285.32) "windy";
                        entry "2024-06-05 00:00:00" (JFloat 310.9) "thunderstorm";
                        entry "2024-06-06 00:00:00" (JFloat 288.71) "few clouds";
                        last_entry])].

(** A single entry, for tomorrow. *)
Definition tomorrow_only : json :=
  JObj [("list", JList [entry "2024-06-02 00:00:00" (JFloat 300) "light rain"])].

(** An entry without its timestamp. *)
Definition no_timestamp : json :=
  JObj [("list", JList [JObj [("main", JObj [("temp", JFloat 300)]);
                              ("weather", JList [JObj [("description",
                                                        JStr "light rain")]])]])].

(** A payload without an entry list. *)
Definition no_list : json := JObj [("cod", JStr "200"); ("cnt", JInt 0)].

(** What the fetcher returns for [week] with the default of five days. *)
Definition week_forecast : list ForecastDay :=
  Eval vm_compute in
    match get_forecast Concrete.strptime today (serves week)
                       (Some 85) (Some 40) 5 lat lon None with
    | Ret (Some days) => days
    | _ => []
    end.

Definition june (d : Z) : date := {| year := 2024; month := 6; day := d |}.

(** The day built from the entry of [tomorrow_only], with thresholds 85
    and 40: 300 K is 80.33 F. *)
Definition tomorrow_day : ForecastDay :=
  {| fd_date := june 2; fd_temp_f := 80.3%float;
     fd_description := JStr "light rain"; fd_icon := Some (JStr "10d");
     fd_tips := ["Comfortable for outdoor activities"; "Bring an umbrella"] |}.

(** A session that holds a validated location and the two thresholds. *)
Definition paris : Session :=
  {| s_lat := Some lat; s_lon := Some lon; s_city := Some "Paris";
     s_country := Some "France"; s_state := Some "";
     s_user_hot := Some 85; s_user_cold := Some 40 |}.

(** The catalogs of [places], cut down to what the samples need. *)
Definition us_cities : gmap string (list string) :=
  {[ "Texas" := ["Austin"; "Dallas"; "Houston"] ]}.
Definition COUNTRY_TO_ISO : gmap string string :=
  <["France" := "fr"]> (<["Germany" := "de"]> {[ USA := "us" ]}).

Definition quiz (country : string) (state : option string) (city : string)
    (hot cold : Z) : FormData :=
  {| country_data := country; state_data := state; city_data := city;
     user_hot_data := hot; user_cold_data := cold |}.

(** One geocoder candidate. *)
Definition candidate (coordinates : list (string * json)) (city country code : string)
  : json :=
  JObj (coordinates ++
        [("display_name", JStr (city +:+ ", " +:+ country));
         ("address", JObj [("city", JStr city); ("country", JStr country);
                           ("country_code", JStr code)])]).

Definition paris_coordinates : list (string * json) :=
  [("lat", JStr "48.8566"); ("lon", JStr "2.3522")].

(** A geocoder that answers 200 with the given candidates. *)
Definition finds (candidates : list json) : string -> option Response :=
  fun _ => Some {| status_code := 200; body := Some (JList candidates) |}.

(** Submissions and geocoder answers for the validator. *)
Definition paris_form : FormData := quiz "France" (Some "") "Paris" 85 40.
Definition dallas_form : FormData :=
  quiz "United States of America" (Some "Texas") "Dallas" 90 45.
Definition paris_found : list json := [candidate paris_coordinates "Paris" "France" "fr"].
Definition dallas_found : list json :=
  [candidate [("lat", JStr "32.7767"); ("lon", JStr "-96.7970")]
             "Dallas" "United States" "us"].

(** A geocoder that cannot be reached. *)
Definition unreachable : string -> option Response := fun _ => None.

(** A geocoder that answers 200 with the given body. *)
Definition answers (body : json) : string -> option Response :=
  fun _ => Some {| status_code := 200; body := Some body |}.

(** Two well-formed entries, the days they give under thresholds 85 and 40,
    and values that are no entries at all. *)
Definition two_days : list json :=
  [entry "2024-06-02 00:00:00" (JFloat 300) "light rain";
   entry "2024-06-03 00:00:00" (JInt 280) "snow"].
Definition snow_day : ForecastDay :=
  {| fd_date := june 3; fd_temp_f := 44.3%float;
     fd_description := JStr "snow"; fd_icon := Some (JStr "10d");
     fd_tips := ["Comfortable for outdoor activities"; "Drive carefully"] |}.
Definition two_days_dated : list (date * ForecastDay) :=
  [(june 2, tomorrow_day); (june 3, snow_day)].
Definition junk : list json := [JNull; JStr "x"; JObj [("dt_txt", JInt 0)]].

(** Entries for today that carry a timestamp and nothing else. *)
Definition today_entries : list json :=
  [JObj [("dt_txt", JStr "2024-06-01 18:00:00")];
   JObj [("dt_txt", JStr "2024-06-01 21:00:00")]].

(** A forecast collaborator that answers 503. *)
Definition down : float -> float -> option string -> option Response :=
  fun _ _ _ => Some {| status_code := 503; body := None |}.

(** A first candidate whose latitude is null. *)
Definition paris_null_latitude : list json :=
  [candidate [("lat", JNull); ("lon", JStr "2.3522")] "Paris" "France" "fr"].

(** What a successful Paris submission leaves behind. *)
Definition paris_validated : St :=
  {| errors := no_errors;
     session := {| s_lat := Some lat; s_lon := Some lon; s_city := Some "Paris";
                   s_country := Some "France"; s_state := Some "";
                   s_user_hot := None; s_user_cold := None |};
     requests := ["Paris, France"] |}.

(** The session a successful Paris submission leaves. *)
Definition paris_located : Session :=
  {| s_lat := Some lat; s_lon := Some lon; s_city := Some "Paris";
     s_country := Some "France"; s_state := Some "";
     s_user_hot := None; s_user_cold := None |}.

(** The fields of a candidate. *)
Definition fields (v : json) : list (string * json) :=
  match v with JObj kv => kv | _ => [] end.

(** A catalog with a country whose ISO code is empty, a submission for that
    country, and the geocoder's answer. *)
Definition incomplete_catalog : gmap string string := <["Kosovo" := ""]> COUNTRY_TO_ISO.
Definition kosovo_form : FormData := quiz "Kosovo" (Some "") "Pristina" 85 40.
Definition pristina_found : list json :=
  [candidate [("lat", JStr "42.6629"); ("lon", JStr "21.1655")] "Pristina" "Kosovo" "xk"].

(** A first candidate whose country code is in capitals. *)
Definition paris_found_capitals : list json :=
  [candidate paris_coordinates "Paris" "France" "FR"].

(** A U.S. city that the catalog does not list. *)
Definition nowhere_form : FormData :=
  quiz "United States of America" (Some "Texas") "Nowhereville" 90 45.

(** The state after the quiz handler has redirected a Paris submission. *)
Definition redirected : St :=
  {| errors := no_errors; session := paris; requests := ["Paris, France"] |}.

End Scenario.

(** ** A program logic for the method body *)

Module Logic.

(** [triple P m Q R]: run from a state satisfying [P], the statement [m]
    either falls through with a value and a state satisfying [Q], or leaves
    the method with a result and a state satisfying [R]. *)
Definition triple {A} (P : St -> Prop) (m : M A)
    (Q : A -> St -> Prop) (R : res bool -> St -> Prop) : Prop :=
  forall st, P st ->
    match m st with
    | Next a st' => Q a st'
    | Done r st' => R r st'
    end.

(** The session with the five location keys written. *)
Definition located (lat lon : float) (city country state : string) (s : Session)
  : Session :=
  {| s_lat := Some lat; s_lon := Some lon; s_city := Some city;
     s_country := Some country; s_state := Some state;
     s_user_hot := s_user_hot s; s_user_cold := s_user_cold s |}.

(** The session with only the latitude written. *)
Definition with_lat (lat : float) (s : Session) : Session :=
  {| s_lat := Some lat; s_lon := s_lon s; s_city := s_city s;
     s_country := s_country s; s_state := s_state s;
     s_user_hot := s_user_hot s; s_user_cold := s_user_cold s |}.

(** One error was appended to one of the three fields. *)
Definition one_more_error (before after : Errors) : Prop :=
  exists msg,
    after = {| state_errors := state_errors before ++ [msg];
               user_hot_errors := user_hot_errors before;
               city_errors := city_errors before |}
    \/ after = {| state_errors := state_errors before;
                  user_hot_errors := user_hot_errors before ++ [msg];
                  city_errors := city_errors before |}
    \/ after = {| state_errors := state_errors before;
                  user_hot_errors := user_hot_errors before;
                  city_errors := city_errors before ++ [msg] |}.

(** What the fetcher's loop keeps true of its dict: the keys are distinct,
    none is today, every value carries its key as its date. *)
Definition dict_ok (today : date) (d : dict) : Prop :=
  NoDup (keys d) /\ (today ∉ keys d) /\ Forall (fun p => fd_date p.2 = p.1) d.

Section Outcome.
Variable strip : string -> string.
Variable lower : string -> string.
Variable us_cities : gmap string (list string).
Variable COUNTRY_TO_ISO : gmap string string.
Variable float_of_str : string -> option float.
Variable geocoder : string -> option Response.
Variable super_validate : bool.
Variable form : FormData.

(** The rules a submission has passed when the geocoder is called. *)
Definition rules_hold : Prop :=
  let city := strip (city_data form) in
  let country := strip (country_data form) in
  let state := state_value strip (state_data form) in
  super_validate = true
  /\ user_cold_data form < user_hot_data form
  /\ (country = USA -> state <> "" /\ city ∈ default [] (us_cities !! state))
  /\ (country <> USA -> state = "").

(** The rules the geocoder's answer has passed when [validate] returns
    [True]: it is truthy, its first result has an address (or none) with a
    country code (or none) that is a string and, for another country than
    the U.S., lowers to the non-empty ISO code of the catalog, and its
    latitude and longitude convert to [lat] and [lon]. *)
Definition accepted (geo_data : json) (lat lon : float) : Prop :=
  let country := strip (country_data form) in
  exists first address code geo_country_code vlat vlon,
    truthy geo_data = true
    /\ getitem0 geo_data = Ret first
    /\ get_default first "address" (JObj []) = Ret address
    /\ get_default address "country_code" (JStr "") = Ret code
    /\ lower_method lower code = Ret geo_country_code
    /\ (country <> USA ->
        exists iso, COUNTRY_TO_ISO !! strip country = Some iso /\ iso <> ""
                    /\ geo_country_code = iso)
    /\ getitem first "lat" = Ret vlat /\ float_ float_of_str vlat = Ret lat
    /\ getitem first "lon" = Ret vlon /\ float_ float_of_str vlon = Ret lon.

(** The session after a failed or interrupted call: untouched, or with the
    latitude alone written. *)
Definition at_most_latitude (before after : Session) : Prop :=
  after = before \/ exists lat, after = with_lat lat before.

(** What holds of every way [validate] can end, from the state [st0]. *)
Definition outcome (st0 : St) (r : res bool) (st' : St) : Prop :=
  let city := strip (city_data form) in
  let country := strip (country_data form) in
  let state := state_value strip (state_data form) in
  let query := build_query city state country in
  match r with
  | Ret true =>
      rules_hold
      /\ errors st' = errors st0
      /\ requests st' = requests st0 ++ [query]
      /\ exists geo_data lat lon,
          fetch_json (geocoder query) = Some geo_data
          /\ accepted geo_data lat lon
          /\ session st' = located lat lon city country state (session st0)
  | Ret false =>
      (if super_validate then one_more_error (errors st0) (errors st')
       else errors st' = errors st0)
      /\ (requests st' = requests st0
          \/ rules_hold /\ requests st' = requests st0 ++ [query])
      /\ at_most_latitude (session st0) (session st')
  | Raise e =>
      rules_hold
      /\ errors st' = errors st0
      /\ requests st' = requests st0 ++ [query]
      /\ at_most_latitude (session st0) (session st')
      /\ e <> ValueError /\ e <> IndexError
  end.
End Outcome.

End Logic.
Import Logic.

(** * Properties *)

(** ** The result and flow monads *)

Lemma bind_Ret {A B} (f : A -> res B) (m : res A) (b : B) :
  m ≫= f = Ret b -> exists a, m = Ret a /\ f a = Ret b.
Proof. destruct m as [a|e]; simpl; [eauto | discriminate]. Qed.

(** Case analysis on membership in an explicit list. *)
Ltac elem_cases :=
  repeat match goal with
         | H : _ ∈ [] |- _ => apply elem_of_nil in H; contradiction
         | H : _ ∈ _ :: _ |- _ => apply elem_of_cons in H; destruct H as [H | H]
         end;
  subst.

(** ** The tip generator *)

Section TipFacts.

Lemma tip_if_append (tips : list string) (b : bool) (tip : string) :
  (if b then append tips tip else tips) = tips ++ tip_if b tip.
Proof. destruct b; simpl; [reflexivity | now rewrite app_nil_r]. Qed.

Lemma get_activity_tips_unfold temp_f description user_hot user_cold :
  get_activity_tips temp_f description user_hot user_cold =
  bucket_tips temp_f user_hot user_cold ++ condition_tips (lower description).
Proof.
  unfold get_activity_tips, bucket_tips, condition_tips.
  rewrite !tip_if_append, <- !app_assoc.
  fold (is_cold temp_f user_cold). fold (is_hot temp_f user_hot).
  destruct (is_cold temp_f user_cold); [reflexivity |].
  destruct (is_hot temp_f user_hot); reflexivity.
Qed.

Lemma condition_tips_not_hot (desc tip : string) :
  tip ∈ condition_tips desc -> tip ∉ hot_bucket.
Proof.
  unfold condition_tips, tip_if, hot_bucket.
  destruct (contains "rain" desc), (contains "snow" desc), (contains "wind" desc),
    (contains "storm" desc || contains "thunder" desc); simpl;
    intros H Hhot; elem_cases; discriminate.
Qed.

(** C6: the output is exactly one bucket (cold before hot before
    comfortable) followed by the condition tips, one per keyword found in
    the lowercased description, in the fixed order rain, snow, wind,
    storm-or-thunder; in the cold case no hot-bucket tip occurs. *)
Theorem get_activity_tips_bucket_then_conditions
    (temp_f : float) (description : string) (user_hot user_cold : option Z) :
  get_activity_tips temp_f description user_hot user_cold =
    (if match user_cold with Some c => fle_Z temp_f c | None => false end
     then ["Bundle up/Wear warm clothes"; "Limit time outdoors"]
     else if match user_hot with Some h => fge_Z temp_f h | None => false end
     then ["Stay hydrated"; "Avoid peak sun hours"]
     else ["Comfortable for outdoor activities"])
    ++ (if contains "rain" (lower description) then ["Bring an umbrella"] else [])
    ++ (if contains "snow" (lower description) then ["Drive carefully"] else [])
    ++ (if contains "wind" (lower description)
        then ["Windy — secure loose items"] else [])
    ++ (if contains "storm" (lower description) || contains "thunder" (lower description)
        then ["Stay indoors if possible"] else [])
  /\ (if match user_cold with Some c => fle_Z temp_f c | None => false end
      then ("Stay hydrated" ∉ get_activity_tips temp_f description user_hot user_cold)
           /\ ("Avoid peak sun hours"
                ∉ get_activity_tips temp_f description user_hot user_cold)
      else True).
Proof.
  rewrite get_activity_tips_unfold. split; [reflexivity |].
  unfold bucket_tips. fold (is_cold temp_f user_cold).
  destruct (is_cold temp_f user_cold); [| exact I].
  split; intros [Hc | Hc]%elem_of_app.
  - unfold cold_bucket in Hc. elem_cases; discriminate.
  - apply condition_tips_not_hot in Hc. apply Hc. unfold hot_bucket. set_solver.
  - unfold cold_bucket in Hc. elem_cases; discriminate.
  - apply condition_tips_not_hot in Hc. apply Hc. unfold hot_bucket. set_solver.
Qed.

End TipFacts.

(** ** The forecast fetcher *)

Section ForecastFacts.

Variable strptime : string -> option datetime.
Variable today : date.
Variable forecast_api : float -> float -> option string -> option Response.
Variables user_hot user_cold : option Z.

Lemma dict_set_fresh (k : date) (v : ForecastDay) (d : dict) :
  k ∉ keys d -> dict_set k v d = d ++ [(k, v)].
Proof.
  induction d as [|[k' v'] d IH]; simpl; intros Hk; [reflexivity |].
  apply not_elem_of_cons in Hk as [Hne Hk].
  rewrite bool_decide_eq_false_2 by congruence.
  now rewrite IH.
Qed.

Lemma values_dict_set (k : date) (v x : ForecastDay) (d : dict) :
  x ∈ values (dict_set k v d) -> x = v \/ x ∈ values d.
Proof.
  unfold values. induction d as [|[k' v'] d IH]; simpl.
  - intros ->%list_elem_of_singleton. now left.
  - destruct (bool_decide (k' = k)); simpl; rewrite !elem_of_cons.
    + intros [-> | H]; auto.
    + intros [-> | H]; auto. destruct (IH H); auto.
Qed.

Lemma skip_test (d : date) (acc : dict) :
  bool_decide (d = today) || dict_mem d acc = bool_decide (d ∈ today :: keys acc).
Proof.
  unfold dict_mem.
  destruct (decide (d = today)) as [-> | Hne].
  - rewrite (bool_decide_eq_true_2 (today = today)) by reflexivity.
    rewrite (bool_decide_eq_true_2 (today ∈ today :: keys acc)) by left.
    reflexivity.
  - rewrite (bool_decide_eq_false_2 (d = today)) by assumption. simpl.
    apply bool_decide_ext. rewrite elem_of_cons. tauto.
Qed.

Lemma first_per_date_ext {A} (l : list (date * A)) :
  forall s1 s2, (forall d, d ∈ s1 <-> d ∈ s2) ->
                first_per_date s1 l = first_per_date s2 l.
Proof.
  induction l as [|p l IH]; intros s1 s2 Hs; simpl; [reflexivity |].
  rewrite (bool_decide_ext _ _ (Hs p.1)).
  destruct (bool_decide (p.1 ∈ s2)).
  - now apply IH.
  - f_equal. apply IH. intros d. rewrite !elem_of_cons, Hs. reflexivity.
Qed.

Lemma len_snoc (acc : dict) (p : date * ForecastDay) : len (acc ++ [p]) = len acc + 1.
Proof. unfold len. rewrite length_app. simpl. lia. Qed.

(** The loop in closed form: starting from [acc], it appends the selected
    items one by one and stops after the first insertion that makes the
    dict reach [max_days] items. *)
Lemma loop_closed_form (max_days : Z) (entries : list json)
    (dated : list (date * ForecastDay)) :
  Forall2 (dated_by strptime user_hot user_cold) entries dated ->
  forall acc,
    loop strptime today user_hot user_cold max_days entries acc =
    Ret (acc ++ take (Z.to_nat (Z.max 1 (max_days - len acc)))
                     (first_per_date (today :: keys acc) dated)).
Proof.
  induction 1 as [|e [d fd] entries dated [Hd Hf] _ IH]; intros acc; simpl in *.
  - now rewrite take_nil, app_nil_r.
  - rewrite Hd. simpl. rewrite skip_test.
    destruct (bool_decide (d ∈ today :: keys acc)) eqn:Hskip; [apply IH |].
    apply bool_decide_eq_false in Hskip.
    rewrite Hf. simpl.
    rewrite dict_set_fresh by (intros Hin; apply Hskip; now right).
    rewrite len_snoc.
    destruct (len acc + 1 >=? max_days) eqn:Hfull.
    + apply Z.geb_le in Hfull.
      replace (Z.to_nat (Z.max 1 (max_days - len acc))) with 1%nat by lia.
      reflexivity.
    + rewrite Z.geb_leb in Hfull. apply Z.leb_gt in Hfull.
      rewrite IH, len_snoc, <- app_assoc. simpl.
      replace (Z.to_nat (Z.max 1 (max_days - len acc)))
        with (S (Z.to_nat (Z.max 1 (max_days - (len acc + 1))))) by lia.
      simpl. do 4 f_equal.
      apply first_per_date_ext. intros x. unfold keys.
      rewrite map_app. simpl.
      rewrite !elem_of_cons, elem_of_app, !elem_of_cons, elem_of_nil. tauto.
Qed.

(** *** Well-formed entries are processed without an exception *)

Lemma well_formed_entry_dated (e : json) :
  well_formed_entry strptime e = true ->
  exists p, dated_by strptime user_hot user_cold e p.
Proof.
  unfold well_formed_entry. intros [[Ht Hk]%andb_prop Hw]%andb_prop.
  unfold has_timestamp in Ht.
  destruct (getitem e "dt_txt") as [[| | | |s| |]|] eqn:Et; try discriminate.
  apply bool_decide_eq_true in Ht as [dt Hdt].
  unfold has_temperature in Hk.
  destruct (getitem e "main") as [main|] eqn:Em; try discriminate.
  destruct (getitem main "temp") as [t|] eqn:Etemp; try discriminate.
  assert (exists k, as_float t = Ret k) as [k Hkf].
  { destruct t; simpl in Hk; try discriminate; simpl; eauto.
    destruct (float_of_Z z); [eauto | discriminate]. }
  unfold has_weather in Hw.
  destruct (getitem e "weather") as [[| | | | |[|[| | | | | |w] l]|]|] eqn:Ew;
    try discriminate.
  destruct (assoc "description" w) as [[| | | |desc| |]|] eqn:Edesc; try discriminate.
  eexists (dt_date dt, _). unfold dated_by. simpl. split.
  - unfold entry_date. rewrite Et. simpl. rewrite Hdt. reflexivity.
  - unfold forecast_day. rewrite Em. simpl. rewrite Etemp. simpl.
    rewrite Hkf. simpl. rewrite Ew. simpl. rewrite Edesc. simpl. reflexivity.
Qed.

Lemma well_formed_entries_dated (l : list json) :
  forallb (well_formed_entry strptime) l = true ->
  exists dated, Forall2 (dated_by strptime user_hot user_cold) l dated.
Proof.
  induction l as [|e l IH]; simpl.
  - exists []. constructor.
  - intros [He Hl]%andb_prop.
    destruct (well_formed_entry_dated e He) as [p Hp].
    destruct (IH Hl) as [dated Hdated].
    exists (p :: dated). now constructor.
Qed.

(** On a well-formed payload the loop runs over [entries_of data]. *)
Lemma well_formed_payload_entries (data : json) :
  well_formed_payload strptime data = true ->
  (get_default data "list" (JList []) ≫= iter) = Ret (entries_of data)
  /\ forallb (well_formed_entry strptime) (entries_of data) = true.
Proof.
  destruct data as [| | | | | |kv]; simpl; try discriminate.
  unfold get_default, entries_of. simpl.
  destruct (assoc "list" kv) as [[| | | | |l|]|]; simpl; try discriminate; auto.
Qed.

(** The fetcher in closed form on a well-formed payload. *)
Lemma get_forecast_closed_form (max_days : Z) (lat lon : float)
    (api_key : option string) (data : json) :
  fetch_json (forecast_api lat lon api_key) = Some data ->
  well_formed_payload strptime data = true ->
  exists dated,
    Forall2 (dated_by strptime user_hot user_cold) (entries_of data) dated
    /\ get_forecast strptime today forecast_api user_hot user_cold max_days
                    lat lon api_key
       = Ret (Some (values (take (Z.to_nat (Z.max 1 max_days))
                                 (first_per_date [today] dated)))).
Proof.
  intros Hfetch [Hiter Hwf]%well_formed_payload_entries.
  destruct (well_formed_entries_dated _ Hwf) as [dated Hdated].
  exists dated. split; [assumption |].
  unfold get_forecast. rewrite Hfetch.
  destruct (get_default data "list" (JList [])) as [lst|]; simpl in *; [| discriminate].
  rewrite Hiter. simpl.
  rewrite (loop_closed_form max_days _ _ Hdated []). simpl.
  unfold len. simpl. now rewrite Z.sub_0_r.
Qed.

(** *** The selection rule *)

Lemma first_per_date_not_seen {A} (l : list (date * A)) :
  forall seen p, p ∈ first_per_date seen l -> p.1 ∉ seen.
Proof.
  induction l as [|q l IH]; intros seen p; simpl.
  - intros []%elem_of_nil.
  - destruct (bool_decide (q.1 ∈ seen)) eqn:Hq.
    + apply IH.
    + apply bool_decide_eq_false in Hq.
      intros [-> | Hin]%elem_of_cons; [assumption |].
      apply IH in Hin. intros Hs. apply Hin. now right.
Qed.

Lemma first_per_date_NoDup {A} (l : list (date * A)) :
  forall seen, NoDup (first_per_date seen l).*1.
Proof.
  induction l as [|q l IH]; intros seen; simpl; [constructor |].
  destruct (bool_decide (q.1 ∈ seen)); [apply IH |].
  simpl. constructor; [| apply IH].
  intros (p & Hp1 & Hp)%list_elem_of_fmap.
  apply first_per_date_not_seen in Hp. apply Hp. rewrite <- Hp1. now left.
Qed.

Lemma first_per_date_sublist {A} (l : list (date * A)) :
  forall seen, sublist (first_per_date seen l) l.
Proof.
  induction l as [|q l IH]; intros seen; simpl; [constructor |].
  destruct (bool_decide (q.1 ∈ seen)).
  - apply sublist_cons, IH.
  - apply sublist_skip, IH.
Qed.

(** A kept item is the first item of the list with its date. *)
Lemma first_per_date_first {A} (l : list (date * A)) :
  forall seen p,
    p ∈ first_per_date seen l ->
    exists i, l !! i = Some p
              /\ forall j q, (j < i)%nat -> l !! j = Some q -> q.1 <> p.1.
Proof.
  induction l as [|q l IH]; intros seen p; simpl.
  - intros []%elem_of_nil.
  - destruct (bool_decide (q.1 ∈ seen)) eqn:Hq.
    + apply bool_decide_eq_true in Hq. intros Hin.
      pose proof (first_per_date_not_seen _ _ _ Hin) as Hns.
      destruct (IH _ _ Hin) as (i & Hi & Hfirst).
      exists (S i). split; [assumption |].
      intros [|j] q' Hj Hq'; simpl in Hq'.
      * injection Hq' as <-. congruence.
      * apply (Hfirst j); [lia | assumption].
    + intros [-> | Hin]%elem_of_cons.
      * exists 0%nat. split; [reflexivity | intros j q' Hj; lia].
      * pose proof (first_per_date_not_seen _ _ _ Hin) as Hns.
        destruct (IH _ _ Hin) as (i & Hi & Hfirst).
        exists (S i). split; [assumption |].
        intros [|j] q' Hj Hq'; simpl in Hq'.
        -- injection Hq' as <-. intros Heq. apply Hns. rewrite <- Heq. now left.
        -- apply (Hfirst j); [lia | assumption].
Qed.

(** Every date of the list that is not seen is the date of a kept item. *)
Lemma first_per_date_complete {A} (l : list (date * A)) :
  forall seen p, p ∈ l -> p.1 ∉ seen -> p.1 ∈ (first_per_date seen l).*1.
Proof.
  induction l as [|q l IH]; intros seen p; simpl.
  - intros []%elem_of_nil.
  - intros [-> | Hin]%elem_of_cons Hns.
    + rewrite bool_decide_eq_false_2 by assumption. simpl. now left.
    + destruct (bool_decide (q.1 ∈ seen)) eqn:Hq; [now apply IH |].
      simpl. destruct (decide (p.1 = q.1)) as [-> | Hne]; [now left |].
      right. apply IH; [assumption |].
      intros [Heq | Hs]%elem_of_cons; [congruence | contradiction].
Qed.

(** *** What a stored value is made of *)

Ltac bind_inv H :=
  let x := fresh "x" in
  let Hx := fresh "Hx" in
  apply bind_Ret in H as (x & Hx & H).

Lemma forecast_day_inv (e : json) (d : date) (fd : ForecastDay) :
  forecast_day user_hot user_cold e d = Ret fd ->
  fd_date fd = d
  /\ exists main temp_k k,
       getitem e "main" = Ret main
       /\ getitem main "temp" = Ret temp_k
       /\ as_float temp_k = Ret k
       /\ fd_temp_f fd = round1 (kelvin_to_fahrenheit k).
Proof.
  unfold forecast_day. intros H.
  apply bind_Ret in H as (main & Hmain & H).
  apply bind_Ret in H as (temp_k & Htemp & H).
  apply bind_Ret in H as (k & Hk & H).
  do 5 bind_inv H.
  injection H as <-. simpl. split; [reflexivity |].
  exists main, temp_k, k. auto.
Qed.

Lemma dated_by_date (e : json) (p : date * ForecastDay) :
  dated_by strptime user_hot user_cold e p -> fd_date p.2 = p.1.
Proof. intros [_ Hf]. now apply forecast_day_inv in Hf. Qed.

(** Every value the loop adds was built from an entry of the list. *)
Lemma loop_values (max_days : Z) (entries : list json) :
  forall acc out,
    loop strptime today user_hot user_cold max_days entries acc = Ret out ->
    forall fd, fd ∈ values out ->
      fd ∈ values acc
      \/ exists e, e ∈ entries
                   /\ entry_date strptime e = Ret (fd_date fd)
                   /\ forecast_day user_hot user_cold e (fd_date fd) = Ret fd.
Proof.
  induction entries as [|e entries IH]; intros acc out; simpl.
  - intros [= <-] fd Hfd. now left.
  - intros H. apply bind_Ret in H as (d & Hd & H).
    assert (forall fd, (fd ∈ values acc
              \/ exists e', e' ∈ entries
                   /\ entry_date strptime e' = Ret (fd_date fd)
                   /\ forecast_day user_hot user_cold e' (fd_date fd) = Ret fd) ->
            fd ∈ values acc
            \/ exists e', e' ∈ e :: entries
                   /\ entry_date strptime e' = Ret (fd_date fd)
                   /\ forecast_day user_hot user_cold e' (fd_date fd) = Ret fd)
      as Hweaken.
    { intros fd [Hacc | (e' & Hin & He')]; [now left | right].
      exists e'. split; [now right | assumption]. }
    destruct (bool_decide (d = today) || dict_mem d acc).
    + intros fd Hfd. apply Hweaken. now apply (IH acc out).
    + apply bind_Ret in H as (v & Hv & H).
      assert (fd_date v = d) as Hdate by now apply forecast_day_inv in Hv.
      assert (forall fd, fd ∈ values (dict_set d v acc) ->
                fd ∈ values acc
                \/ exists e', e' ∈ e :: entries
                     /\ entry_date strptime e' = Ret (fd_date fd)
                     /\ forecast_day user_hot user_cold e' (fd_date fd) = Ret fd)
        as Hset.
      { intros fd [-> | Hacc]%values_dict_set; [right | now left].
        exists e. rewrite Hdate. split; [now left | auto]. }
      destruct (len (dict_set d v acc) >=? max_days).
      * injection H as <-. exact Hset.
      * intros fd Hfd.
        destruct (IH _ _ H fd Hfd) as [Hin | Hex]; [now apply Hset |].
        apply Hweaken. now right.
Qed.

(** *** Failure handling *)

(** Whatever the guarded block catches yields the sentinel: a transport
    error, a 4xx or 5xx status, a body that is not JSON. *)
Lemma get_forecast_unavailable (max_days : Z) (lat lon : float)
    (api_key : option string) :
  fetch_json (forecast_api lat lon api_key) = None ->
  get_forecast strptime today forecast_api user_hot user_cold max_days lat lon api_key
  = Ret None.
Proof. unfold get_forecast. now intros ->. Qed.

Lemma fetch_json_None (r : option Response) :
  fetch_json r = None <->
  r = None \/ exists resp, r = Some resp
                           /\ (raise_for_status resp = true \/ body resp = None).
Proof.
  destruct r as [resp|]; simpl.
  - destruct (raise_for_status resp) eqn:Hs; split.
    + intros _. right. exists resp. auto.
    + reflexivity.
    + intros Hb. right. exists resp. auto.
    + intros [Hn | (r' & Hr & Hc)]; [discriminate |].
      injection Hr as <-. destruct Hc as [Hc | Hc]; [congruence | exact Hc].
  - split; auto.
Qed.

(** C1: an entry without its timestamp makes the fetcher raise [KeyError]
    after the guarded block has been left, so the sentinel is not returned:
    the parsing loop is outside the block that turns failures into [None]. *)
Theorem get_forecast_missing_timestamp_raises (max_days : Z) (lat lon : float)
    (api_key : option string) :
  get_forecast strptime today (Scenario.serves Scenario.no_timestamp)
               user_hot user_cold max_days lat lon api_key
  = Raise KeyError
  /\ get_forecast strptime today (Scenario.serves Scenario.no_timestamp)
                  user_hot user_cold max_days lat lon api_key
     <> Ret None.
Proof. split; [reflexivity | discriminate]. Qed.

(** *** Temperature *)

(** C5: every returned day was built from an entry of the payload with the
    same date, and its [temp_f] is (K - 273.15) * 9/5 + 32 rounded to one
    decimal, K being that entry's temperature. *)
Theorem get_forecast_temp_f (max_days : Z) (lat lon : float)
    (api_key : option string) (days : list ForecastDay) (fd : ForecastDay) :
  get_forecast strptime today forecast_api user_hot user_cold max_days lat lon api_key
  = Ret (Some days) ->
  fd ∈ days ->
  exists data lst entries e main temp_k k,
    fetch_json (forecast_api lat lon api_key) = Some data
    /\ get_default data "list" (JList []) = Ret lst
    /\ iter lst = Ret entries
    /\ e ∈ entries
    /\ entry_date strptime e = Ret (fd_date fd)
    /\ getitem e "main" = Ret main
    /\ getitem main "temp" = Ret temp_k
    /\ as_float temp_k = Ret k
    /\ fd_temp_f fd = round1 (kelvin_to_fahrenheit k).
Proof.
  unfold get_forecast. intros H Hfd.
  destruct (fetch_json (forecast_api lat lon api_key)) as [data|]; [| discriminate].
  apply bind_Ret in H as (lst & Hlst & H).
  apply bind_Ret in H as (entries & Hentries & H).
  apply bind_Ret in H as (out & Hloop & H).
  injection H as <-.
  destruct (loop_values _ _ _ _ Hloop fd Hfd) as [[]%elem_of_nil | (e & Hin & Hd & Hf)].
  apply forecast_day_inv in Hf as (_ & main & temp_k & k & Hm & Ht & Hk & Htemp).
  exists data, lst, entries, e, main, temp_k, k. auto 10.
Qed.

(** *** Length *)

Lemma date_ltb_irrefl (d : date) : date_ltb d d = false.
Proof.
  unfold date_ltb. rewrite !Z.ltb_irrefl, !Z.eqb_refl. reflexivity.
Qed.

Lemma length_values (d : dict) : length (values d) = length d.
Proof. apply length_map. Qed.

(** C3, for [max_days >= 1]: on a well-formed payload the fetcher
    returns a list of at most [max_days] days, and of exactly [max_days]
    days when the payload holds at least [max_days] distinct future
    dates. *)
Theorem get_forecast_length (max_days : Z) (lat lon : float)
    (api_key : option string) (data : json) :
  1 <= max_days ->
  fetch_json (forecast_api lat lon api_key) = Some data ->
  well_formed_payload strptime data = true ->
  exists days,
    get_forecast strptime today forecast_api user_hot user_cold max_days
                 lat lon api_key = Ret (Some days)
    /\ Z.of_nat (length days) <= max_days
    /\ forall future : list date,
         NoDup future ->
         (forall d, d ∈ future ->
                    date_ltb today d = true
                    /\ exists e, e ∈ entries_of data /\ entry_date strptime e = Ret d) ->
         max_days <= Z.of_nat (length future) ->
         Z.of_nat (length days) = max_days.
Proof.
  intros Hmax Hfetch Hwf.
  destruct (get_forecast_closed_form max_days lat lon api_key data Hfetch Hwf)
    as (dated & Hdated & Hget).
  eexists. split; [exact Hget |].
  rewrite length_values, length_take.
  replace (Z.to_nat (Z.max 1 max_days)) with (Z.to_nat max_days) by lia.
  split; [lia |].
  intros future Hnd Hfuture Hmany.
  assert (length future <= length (first_per_date [today] dated))%nat; [| lia].
  rewrite <- (length_fmap fst (first_per_date [today] dated)).
  apply submseteq_length, NoDup_submseteq; [assumption |].
  intros d (Hlt & e & (i & Hi)%list_elem_of_lookup & Hd)%Hfuture.
  destruct (Forall2_lookup_l _ _ _ _ _ Hdated Hi) as (p & Hp & Hpd & _).
  assert (p.1 = d) as <- by congruence.
  apply first_per_date_complete.
  - apply list_elem_of_lookup. eauto.
  - intros Heq%list_elem_of_singleton. rewrite Heq in Hlt.
    now rewrite date_ltb_irrefl in Hlt.
Qed.

(** *** Selection and order *)

(** C4, for [max_days >= 1] and up to the cap: on a well-formed payload the
    returned days are the values of the first [max_days] items selected by
    the rule "skip today, skip a date already kept", in arrival order; no
    returned day is dated today, no date occurs twice, and each returned
    day is the one built from the first entry of the payload that has its
    date. *)
Theorem get_forecast_first_entry_per_date (max_days : Z) (lat lon : float)
    (api_key : option string) (data : json) :
  1 <= max_days ->
  fetch_json (forecast_api lat lon api_key) = Some data ->
  well_formed_payload strptime data = true ->
  exists dated days,
    Forall2 (dated_by strptime user_hot user_cold) (entries_of data) dated
    /\ get_forecast strptime today forecast_api user_hot user_cold max_days
                    lat lon api_key = Ret (Some days)
    /\ days = values (take (Z.to_nat max_days) (first_per_date [today] dated))
    /\ (forall fd, fd ∈ days -> fd_date fd <> today)
    /\ NoDup (fd_date <$> days)
    /\ (forall fd, fd ∈ days ->
          exists i e,
            entries_of data !! i = Some e
            /\ entry_date strptime e = Ret (fd_date fd)
            /\ forecast_day user_hot user_cold e (fd_date fd) = Ret fd
            /\ forall j e', (j < i)%nat -> entries_of data !! j = Some e' ->
                            entry_date strptime e' <> Ret (fd_date fd)).
Proof.
  intros Hmax Hfetch Hwf.
  destruct (get_forecast_closed_form max_days lat lon api_key data Hfetch Hwf)
    as (dated & Hdated & Hget).
  replace (Z.to_nat (Z.max 1 max_days)) with (Z.to_nat max_days) in Hget by lia.
  exists dated, (values (take (Z.to_nat max_days) (first_per_date [today] dated))).
  split; [assumption |]. split; [assumption |]. split; [reflexivity |].
  set (kept := take (Z.to_nat max_days) (first_per_date [today] dated)).
  assert (forall p, p ∈ kept -> p ∈ first_per_date [today] dated) as Hkept.
  { intros p Hp. now apply (subseteq_take (Z.to_nat max_days)). }
  assert (forall p, p ∈ dated -> fd_date p.2 = p.1) as Hdates.
  { intros p (i & Hi)%list_elem_of_lookup.
    destruct (Forall2_lookup_r _ _ _ _ _ Hdated Hi) as (e & _ & He).
    now apply dated_by_date in He. }
  assert (forall p, p ∈ kept -> fd_date p.2 = p.1) as Hkdates.
  { intros p Hp. apply Hdates.
    apply Hkept, first_per_date_first in Hp as (i & Hi & _).
    apply list_elem_of_lookup. eauto. }
  split; [| split].
  - intros fd (p & -> & Hp)%list_elem_of_fmap.
    rewrite (Hkdates p Hp). intros Htoday.
    apply Hkept, first_per_date_not_seen in Hp. apply Hp.
    rewrite Htoday. now left.
  - unfold values. rewrite <- list_fmap_compose.
    rewrite (list_fmap_ext (fd_date ∘ snd) fst kept).
    + apply (sublist_NoDup _ (first_per_date [today] dated).*1).
      * apply first_per_date_NoDup.
      * apply fmap_sublist, sublist_take.
    + intros i p Hi. simpl. apply Hkdates. apply list_elem_of_lookup. eauto.
  - intros fd (p & -> & Hp)%list_elem_of_fmap.
    rewrite (Hkdates p Hp).
    apply Hkept, first_per_date_first in Hp as (i & Hi & Hfirst).
    destruct (Forall2_lookup_r _ _ _ _ _ Hdated Hi) as (e & He & Hed & Hef).
    exists i, e. split; [assumption |]. split; [assumption |].
    split; [assumption |].
    intros j e' Hj He' Heq.
    destruct (Forall2_lookup_l _ _ _ _ _ Hdated He') as (q & Hq & Hqd & _).
    apply (Hfirst j q Hj Hq). congruence.
Qed.

End ForecastFacts.

(** ** The results handler *)

Section RouteFacts.

Variable strptime : string -> option datetime.
Variable today : date.
Variable forecast_api : float -> float -> option string -> option Response.
Variable API_KEY : option string.

(** C10: a successful response whose payload has an empty or absent entry
    list makes the fetcher return the empty list, not the sentinel, and
    the results handler renders the view model with an empty forecast and
    no error. *)
Theorem results_empty_forecast (sess : Session) (lat lon : float)
    (resp : Response) (kv : list (string * json)) :
  s_lat sess = Some lat ->
  s_lon sess = Some lon ->
  forecast_api lat lon API_KEY = Some resp ->
  raise_for_status resp = false ->
  body resp = Some (JObj kv) ->
  assoc "list" kv = None \/ assoc "list" kv = Some (JList []) ->
  (forall user_hot user_cold max_days,
      get_forecast strptime today forecast_api user_hot user_cold max_days
                   lat lon API_KEY = Ret (Some []))
  /\ Some ([] : list ForecastDay) <> None
  /\ results strptime today forecast_api API_KEY sess
     = Ret {| weather := Some {| wd_state := s_state sess; wd_city := s_city sess;
                                 wd_country := s_country sess; wd_forecast := [] |};
              ctx_user_hot := s_user_hot sess; ctx_user_cold := s_user_cold sess;
              error := None |}.
Proof.
  intros Hlat Hlon Hresp Hstatus Hbody Hlist.
  assert (forall user_hot user_cold max_days,
             get_forecast strptime today forecast_api user_hot user_cold max_days
                          lat lon API_KEY = Ret (Some [])) as Hget.
  { intros. unfold get_forecast, fetch_json. rewrite Hresp, Hstatus, Hbody.
    unfold get_default. simpl. destruct Hlist as [-> | ->]; reflexivity. }
  split; [exact Hget |]. split; [discriminate |].
  unfold results. rewrite Hlat, Hlon, Hget. reflexivity.
Qed.

End RouteFacts.

(** ** The theorems at the sample data *)

Lemma get_forecast_temp_f_witness :
  get_forecast Concrete.strptime Scenario.today (Scenario.serves Scenario.tomorrow_only)
               (Some 85) (Some 40) 5 Scenario.lat Scenario.lon None
  = Ret (Some [Scenario.tomorrow_day])
  /\ Scenario.tomorrow_day ∈ [Scenario.tomorrow_day]
  /\ exists data lst entries e main temp_k k,
       fetch_json (Scenario.serves Scenario.tomorrow_only Scenario.lat Scenario.lon None)
       = Some data
       /\ get_default data "list" (JList []) = Ret lst
       /\ iter lst = Ret entries
       /\ e ∈ entries
       /\ entry_date Concrete.strptime e = Ret (fd_date Scenario.tomorrow_day)
       /\ getitem e "main" = Ret main
       /\ getitem main "temp" = Ret temp_k
       /\ as_float temp_k = Ret k
       /\ fd_temp_f Scenario.tomorrow_day = round1 (kelvin_to_fahrenheit k).
Proof.
  assert (get_forecast Concrete.strptime Scenario.today
            (Scenario.serves Scenario.tomorrow_only)
            (Some 85) (Some 40) 5 Scenario.lat Scenario.lon None
          = Ret (Some [Scenario.tomorrow_day])) as Hget by (vm_compute; reflexivity).
  assert (Scenario.tomorrow_day ∈ [Scenario.tomorrow_day]) as Hin by (apply elem_of_cons; now
      left).
  split; [exact Hget |]. split; [exact Hin |].
  exact (get_forecast_temp_f Concrete.strptime Scenario.today
           (Scenario.serves Scenario.tomorrow_only) (Some 85) (Some 40) 5
           Scenario.lat Scenario.lon None [Scenario.tomorrow_day] Scenario.tomorrow_day
           Hget Hin).
Defined.

(** A timestamp in another format raises [ValueError] the same way. *)
Lemma get_forecast_bad_timestamp_raises :
  Concrete.strptime "2024-06-02T00:00:00" = None
  /\ get_forecast Concrete.strptime Scenario.today
       (Scenario.serves
          (JObj [("list", JList [Scenario.entry "2024-06-02T00:00:00" (JFloat 300)
                                                "light rain"])]))
       (Some 85) (Some 40) 5 Scenario.lat Scenario.lon None
     = Raise ValueError.
Proof. split; vm_compute; reflexivity. Qed.

Lemma get_forecast_length_witness :
  1 <= 5
  /\ fetch_json (Scenario.serves Scenario.week Scenario.lat Scenario.lon None)
     = Some Scenario.week
  /\ well_formed_payload Concrete.strptime Scenario.week = true
  /\ exists days,
      get_forecast Concrete.strptime Scenario.today (Scenario.serves Scenario.week)
                   (Some 85) (Some 40) 5 Scenario.lat Scenario.lon None
      = Ret (Some days)
      /\ Z.of_nat (length days) <= 5
      /\ forall future : list date,
          NoDup future ->
          (forall d, d ∈ future ->
                     date_ltb Scenario.today d = true
                     /\ exists e, e ∈ entries_of Scenario.week
                                  /\ entry_date Concrete.strptime e = Ret d) ->
          5 <= Z.of_nat (length future) ->
          Z.of_nat (length days) = 5.
Proof.
  assert (1 <= 5) as H1 by lia.
  assert (fetch_json (Scenario.serves Scenario.week Scenario.lat Scenario.lon None)
          = Some Scenario.week) as H2 by reflexivity.
  assert (well_formed_payload Concrete.strptime Scenario.week = true) as H3
    by (vm_compute; reflexivity).
  split; [exact H1 |]. split; [exact H2 |]. split; [exact H3 |].
  exact (get_forecast_length Concrete.strptime Scenario.today
           (Scenario.serves Scenario.week) (Some 85) (Some 40) 5
           Scenario.lat Scenario.lon None Scenario.week H1 H2 H3).
Defined.

(** With [max_days = 0] the first kept entry is stored before the length is
    tested, so one day is returned. *)
Lemma get_forecast_zero_max_days_returns_one :
  well_formed_payload Concrete.strptime Scenario.tomorrow_only = true
  /\ get_forecast Concrete.strptime Scenario.today
                  (Scenario.serves Scenario.tomorrow_only)
                  (Some 85) (Some 40) 0 Scenario.lat Scenario.lon None
     = Ret (Some [Scenario.tomorrow_day])
  /\ ~ (exists days,
          get_forecast Concrete.strptime Scenario.today
                       (Scenario.serves Scenario.tomorrow_only)
                       (Some 85) (Some 40) 0 Scenario.lat Scenario.lon None
          = Ret (Some days)
          /\ Z.of_nat (length days) <= 0).
Proof.
  assert (get_forecast Concrete.strptime Scenario.today
            (Scenario.serves Scenario.tomorrow_only)
            (Some 85) (Some 40) 0 Scenario.lat Scenario.lon None
          = Ret (Some [Scenario.tomorrow_day])) as Hget by (vm_compute; reflexivity).
  split; [vm_compute; reflexivity |]. split; [exact Hget |].
  intros (days & Hdays & Hlen). rewrite Hget in Hdays.
  injection Hdays as <-. simpl in Hlen. lia.
Qed.

Lemma get_forecast_first_entry_per_date_witness :
  1 <= 5
  /\ fetch_json (Scenario.serves Scenario.week Scenario.lat Scenario.lon None)
     = Some Scenario.week
  /\ well_formed_payload Concrete.strptime Scenario.week = true
  /\ exists dated days,
      Forall2 (dated_by Concrete.strptime (Some 85) (Some 40))
              (entries_of Scenario.week) dated
      /\ get_forecast Concrete.strptime Scenario.today (Scenario.serves Scenario.week)
                      (Some 85) (Some 40) 5 Scenario.lat Scenario.lon None
         = Ret (Some days)
      /\ days = values (take (Z.to_nat 5) (first_per_date [Scenario.today] dated))
      /\ (forall fd, fd ∈ days -> fd_date fd <> Scenario.today)
      /\ NoDup (fd_date <$> days)
      /\ (forall fd, fd ∈ days ->
            exists i e,
              entries_of Scenario.week !! i = Some e
              /\ entry_date Concrete.strptime e = Ret (fd_date fd)
              /\ forecast_day (Some 85) (Some 40) e (fd_date fd) = Ret fd
              /\ forall j e', (j < i)%nat -> entries_of Scenario.week !! j = Some e' ->
                              entry_date Concrete.strptime e' <> Ret (fd_date fd)).
Proof.
  assert (1 <= 5) as H1 by lia.
  assert (fetch_json (Scenario.serves Scenario.week Scenario.lat Scenario.lon None)
          = Some Scenario.week) as H2 by reflexivity.
  assert (well_formed_payload Concrete.strptime Scenario.week = true) as H3
    by (vm_compute; reflexivity).
  split; [exact H1 |]. split; [exact H2 |]. split; [exact H3 |].
  exact (get_forecast_first_entry_per_date Concrete.strptime Scenario.today
           (Scenario.serves Scenario.week) (Some 85) (Some 40) 5
           Scenario.lat Scenario.lon None Scenario.week H1 H2 H3).
Defined.

(** With the default of five days, the sixth distinct future date of the
    payload, 7 June, is not kept. *)
Lemma get_forecast_drops_sixth_date :
  well_formed_payload Concrete.strptime Scenario.week = true
  /\ date_ltb Scenario.today (Scenario.june 7) = true
  /\ (exists e, e ∈ entries_of Scenario.week
                /\ entry_date Concrete.strptime e = Ret (Scenario.june 7))
  /\ get_forecast Concrete.strptime Scenario.today (Scenario.serves Scenario.week)
                  (Some 85) (Some 40) 5 Scenario.lat Scenario.lon None
     = Ret (Some Scenario.week_forecast)
  /\ ~ (exists fd, fd ∈ Scenario.week_forecast /\ fd_date fd = Scenario.june 7).
Proof.
  split; [vm_compute; reflexivity |]. split; [reflexivity |]. split; [| split].
  - exists Scenario.last_entry.
    split; [| vm_compute; reflexivity].
    unfold Scenario.week, entries_of. simpl. set_solver.
  - vm_compute. reflexivity.
  - intros (fd & Hin & Hd). unfold Scenario.week_forecast in Hin.
    elem_cases; vm_compute in Hd; discriminate.
Qed.

Lemma results_empty_forecast_witness :
  s_lat Scenario.paris = Some Scenario.lat
  /\ s_lon Scenario.paris = Some Scenario.lon
  /\ Scenario.serves Scenario.no_list Scenario.lat Scenario.lon (Some "k")
     = Some {| status_code := 200; body := Some Scenario.no_list |}
  /\ raise_for_status {| status_code := 200; body := Some Scenario.no_list |} = false
  /\ (forall user_hot user_cold max_days,
         get_forecast Concrete.strptime Scenario.today (Scenario.serves Scenario.no_list)
                      user_hot user_cold max_days Scenario.lat Scenario.lon (Some "k")
         = Ret (Some []))
  /\ Some ([] : list ForecastDay) <> None
  /\ results Concrete.strptime Scenario.today (Scenario.serves Scenario.no_list)
             (Some "k") Scenario.paris
     = Ret {| weather := Some {| wd_state := Some ""; wd_city := Some "Paris";
                                 wd_country := Some "France"; wd_forecast := [] |};
              ctx_user_hot := Some 85; ctx_user_cold := Some 40; error := None |}.
Proof.
  assert (raise_for_status {| status_code := 200; body := Some Scenario.no_list |} = false)
    as Hs by reflexivity.
  split; [reflexivity |]. split; [reflexivity |]. split; [reflexivity |].
  split; [exact Hs |].
  exact (results_empty_forecast Concrete.strptime Scenario.today
           (Scenario.serves Scenario.no_list) (Some "k") Scenario.paris
           Scenario.lat Scenario.lon
           {| status_code := 200; body := Some Scenario.no_list |}
           [("cod", JStr "200"); ("cnt", JInt 0)]
           eq_refl eq_refl eq_refl Hs eq_refl (or_introl eq_refl)).
Defined.

(** ** The quiz form validator *)

Lemma nonempty_false (s : string) : nonempty s = false <-> s = "".
Proof. destruct s; simpl; split; congruence. Qed.

Lemma nonempty_true (s : string) : nonempty s = true <-> s <> "".
Proof. destruct s; simpl; split; congruence. Qed.

(** *** Text *)

Lemma append_nil (b : string) : "" +:+ b = b.
Proof. reflexivity. Qed.

Lemma append_cons (x : ascii) (a b : string) : String x a +:+ b = String x (a +:+ b).
Proof. reflexivity. Qed.

Lemma append_assoc (a b c : string) : (a +:+ b) +:+ c = a +:+ b +:+ c.
Proof.
  induction a as [|x a IH]; rewrite ?append_nil, ?append_cons; [reflexivity |].
  now rewrite IH.
Qed.

Lemma prefix_append (a b : string) : String.prefix a (a +:+ b) = true.
Proof.
  induction a as [|x a IH]; rewrite ?append_nil, ?append_cons; simpl; [now destruct b |].
  destruct (ascii_dec x x); [assumption | congruence].
Qed.

Lemma prefix_append_l (a b s : string) :
  String.prefix (a +:+ b) s = true -> String.prefix a s = true.
Proof.
  revert s. induction a as [|x a IH]; intros s; rewrite ?append_nil, ?append_cons; simpl;
    [now destruct s |].
  destruct s as [|y s]; [discriminate |]. simpl.
  destruct (ascii_dec x y); [apply IH | discriminate].
Qed.

Lemma contains_prefix (sub s : string) :
  String.prefix sub s = true -> contains sub s = true.
Proof. intros H. destruct s; simpl in *; rewrite H; reflexivity. Qed.

Lemma contains_infix (a sub b : string) : contains sub (a +:+ sub +:+ b) = true.
Proof.
  induction a as [|x a IH]; rewrite ?append_nil, ?append_cons.
  - apply contains_prefix, prefix_append.
  - simpl. rewrite IH. apply orb_true_r.
Qed.

Lemma contains_append_l (a b s : string) :
  contains (a +:+ b) s = true -> contains a s = true.
Proof.
  induction s as [|y s IH]; cbn [contains].
  - rewrite !orb_false_r. apply prefix_append_l.
  - intros [H | H]%orb_prop.
    + apply prefix_append_l in H. rewrite H. reflexivity.
    + rewrite (IH H). apply orb_true_r.
Qed.

(** *** Running the method body *)

Ltac run_M :=
  unfold mbind, M_bind, when, return_, eval, requests_get, city_errors_append,
    state_errors_append, user_hot_errors_append, update_errors, mret, M_ret, res_ret;
  cbn -[store_in_session fetch_json build_query String.append lower].

Ltac finish_M :=
  unfold with_request, with_city_error; cbn -[store_in_session build_query String.append lower];
  try match goal with
      | |- context [store_in_session ?f ?g ?c ?k ?s ?st] =>
          destruct (store_in_session f g c k s st) as [[] ?|? ?]
      end;
  reflexivity.

Section QuizFacts.

(** [str.strip] and [str.lower]: nothing is assumed of them, so what follows
    holds for the interpreter's. *)
Variable strip : string -> string.
Variable lower : string -> string.
Variable us_cities : gmap string (list string).
Variable COUNTRY_TO_ISO : gmap string string.
Variable float_of_str : string -> option float.
Variable geocoder : string -> option Response.

(** C8: a submission that passed the framework's checks fails, with an error
    on the state field, when the country is the U.S. and the stripped state is
    empty, and when the country is another one and the stripped state is not
    empty. *)
Theorem validate_state_applicability (form : FormData) (st : St) :
  strip (country_data form) = USA /\ state_value strip (state_data form) = ""
  \/ strip (country_data form) <> USA /\ state_value strip (state_data form) <> "" ->
  validate strip lower us_cities COUNTRY_TO_ISO float_of_str geocoder true form st
  = (Ret false,
     with_state_error st
       (if String.eqb (strip (country_data form)) USA
        then "Please select a U.S. state."
        else "State should only be selected for the United States.")).
Proof.
  unfold validate, validate_body. cbv zeta.
  intros [[Hc Hs] | [Hc Hs]].
  - rewrite Hc, Hs. reflexivity.
  - apply String.eqb_neq in Hc. apply nonempty_true in Hs.
    simpl. rewrite Hc, Hs. reflexivity.
Qed.

(** C9: a submission that passed the framework's checks and the state rule
    and whose hot threshold is not above the cold one fails with an error on
    the hot-temperature field; the geocoder is not called, the session and the
    city errors are untouched, and the outcome depends neither on the
    catalogs nor on the geocoder. *)
Theorem validate_threshold_order (form : FormData) (st : St) :
  strip (country_data form) = USA /\ state_value strip (state_data form) <> ""
  \/ strip (country_data form) <> USA /\ state_value strip (state_data form) = "" ->
  user_hot_data form <= user_cold_data form ->
  validate strip lower us_cities COUNTRY_TO_ISO float_of_str geocoder true form st
  = (Ret false,
     with_user_hot_error st "Hot temperature must be greater than Cold temperature.")
  /\ requests
       (validate strip lower us_cities COUNTRY_TO_ISO float_of_str geocoder true form st).2
     = requests st
  /\ session
       (validate strip lower us_cities COUNTRY_TO_ISO float_of_str geocoder true form st).2
     = session st
  /\ city_errors
       (errors (validate strip lower us_cities COUNTRY_TO_ISO float_of_str geocoder true form
           st).2)
     = city_errors (errors st).
Proof.
  intros Hstate Hle.
  assert (validate strip lower us_cities COUNTRY_TO_ISO float_of_str geocoder true form st
          = (Ret false,
             with_user_hot_error st
               "Hot temperature must be greater than Cold temperature.")) as ->.
  { unfold validate, validate_body. cbv zeta.
    apply Z.leb_le in Hle.
    destruct Hstate as [[Hc Hs] | [Hc Hs]].
    - apply nonempty_true in Hs. rewrite Hc. simpl. rewrite Hs, Hle. reflexivity.
    - apply String.eqb_neq in Hc. apply nonempty_false in Hs.
      simpl. rewrite Hc, Hs, Hle. reflexivity. }
  auto.
Qed.

(** *** The steps after the threshold rule *)

Lemma store_in_session_outcome (geo_data : json) (city country state : string) (st : St) :
  match store_in_session float_of_str geo_data city country state st with
  | Next _ st' => errors st' = errors st /\ requests st' = requests st
  | Done r st' =>
      (r = Ret false
       /\ errors st' = errors (with_city_error st "Error storing location coordinates.")
       /\ requests st' = requests st)
      \/ exists e, r = Raise e
  end.
Proof.
  unfold store_in_session, try_except, mbind, M_bind, eval.
  destruct (getitem0 geo_data) as [first|[]]; cbn; eauto 6.
  destruct (getitem first "lat") as [lat|[]]; cbn; eauto 6.
  destruct (float_ float_of_str lat) as [latf|[]]; cbn; eauto 6.
  destruct (getitem first "lon") as [lon|[]]; cbn; eauto 6.
  destruct (float_ float_of_str lon) as [lonf|[]]; cbn; eauto 6.
Qed.



Lemma validate_after_geocoding (form : FormData) (st : St) (geo_data : json)
    (code iso : string) :
  let city := strip (city_data form) in
  let country := strip (country_data form) in
  let state := state_value strip (state_data form) in
  (country = USA -> state <> "" /\ city ∈ default [] (us_cities !! state)) ->
  (country <> USA ->
   state = "" /\ COUNTRY_TO_ISO !! strip country = Some iso /\ iso <> "") ->
  user_cold_data form < user_hot_data form ->
  fetch_json (geocoder (build_query city state country)) = Some geo_data ->
  first_country_code geo_data = Some code ->
  validate strip lower us_cities COUNTRY_TO_ISO float_of_str geocoder true form st
  = let st1 := with_request st (build_query city state country) in
    if negb (String.eqb country USA) && negb (bool_decide (lower code = iso))
    then (Ret false, with_city_error st1 (city +:+ " is not a city in " +:+ country +:+ ". "))
    else match store_in_session float_of_str geo_data city country state st1 with
         | Next _ st' => (Ret true, st')
         | Done r st' => (r, st')
         end.
Proof.
  intros city country state Hus Hnon Hlt Hfetch Hcode.
  apply Z.leb_gt in Hlt.
  unfold validate, validate_body. cbv zeta.
  fold city. fold country. fold state.
  clearbody city country state.
  destruct geo_data as [| | | | |[|[| | | | | |first] rest]|]; try discriminate.
  unfold first_country_code in Hcode.
  destruct (String.eqb_spec country USA) as [Heq | Hne].
  - destruct (Hus Heq) as [Hs Hcity]. apply nonempty_true in Hs.
    run_M. rewrite Hs, Hlt, (bool_decide_eq_true_2 _ Hcity). run_M.
    rewrite Hfetch. run_M.
    destruct (assoc "address" first) as [[| | | | | |address]|]; try discriminate; run_M.
    + destruct (assoc "country_code" address) as [[| | | |c| |]|]; try discriminate;
        run_M; destruct (from_option truthy false (assoc "city" address)); finish_M.
    + finish_M.
  - destruct (Hnon Hne) as (Hs & Hiso & Hne_iso).
    apply nonempty_false in Hs. apply nonempty_true in Hne_iso.
    run_M. rewrite Hs, Hlt. run_M.
    rewrite Hfetch. run_M. rewrite Hiso. run_M. rewrite Hne_iso. run_M.
    assert (forall x, bool_decide (Some x = Some iso) = bool_decide (x = iso)) as Hdec.
    { intros x. apply bool_decide_ext. split; congruence. }
    destruct (assoc "address" first) as [[| | | | | |address]|]; try discriminate; run_M.
    + destruct (assoc "country_code" address) as [[| | | |c| |]|]; try discriminate;
        injection Hcode as <-; run_M;
        destruct (from_option truthy false (assoc "city" address)); run_M;
        rewrite Hdec;
        match goal with |- context [bool_decide ?P] => destruct (bool_decide P) end;
        finish_M.
    + injection Hcode as <-. rewrite Hdec.
      match goal with |- context [bool_decide ?P] => destruct (bool_decide P) end;
        finish_M.
Qed.


Lemma cross_check_message (city country : string) :
  contains ("not a city in " +:+ country)
           (city +:+ " is not a city in " +:+ country +:+ ". ") = true.
Proof.
  replace (city +:+ " is not a city in " +:+ country +:+ ". ")
    with ((city +:+ " is ") +:+ ("not a city in " +:+ country) +:+ ". ").
  - apply contains_infix.
  - rewrite !append_assoc. reflexivity.
Qed.

Lemma storage_message_differs (country : string) :
  contains ("not a city in " +:+ country) "Error storing location coordinates." = false.
Proof.
  destruct (contains ("not a city in " +:+ country) _) eqn:H; [| reflexivity].
  apply contains_append_l in H. vm_compute in H. discriminate.
Qed.

(** C7: for a submission that reaches the cross-check with a geocode answer
    of the expected shape, [validate] fails on the city field with a message
    containing "not a city in <country>" exactly when the country is not the
    U.S. and the lowercased country code of the first result differs from
    the ISO code of the country; for the U.S. it never does. *)
Theorem validate_country_cross_check (form : FormData) (st : St) (geo_data : json)
    (code iso : string) :
  let city := strip (city_data form) in
  let country := strip (country_data form) in
  let state := state_value strip (state_data form) in
  (country = USA -> state <> "" /\ city ∈ default [] (us_cities !! state)) ->
  (country <> USA ->
   state = "" /\ COUNTRY_TO_ISO !! strip country = Some iso /\ iso <> "") ->
  user_cold_data form < user_hot_data form ->
  fetch_json (geocoder (build_query city state country)) = Some geo_data ->
  first_country_code geo_data = Some code ->
  cross_check_failed country st
    (validate strip lower us_cities COUNTRY_TO_ISO float_of_str geocoder true form st)
  <-> country <> USA /\ lower code <> iso.
Proof.
  intros city country state Hus Hnon Hlt Hfetch Hcode.
  rewrite (validate_after_geocoding form st geo_data code iso Hus Hnon Hlt Hfetch Hcode).
  fold city. fold country. fold state. cbv zeta.
  clearbody city country state.
  assert (negb (String.eqb country USA) && negb (bool_decide (lower code = iso)) = true
          <-> country <> USA /\ lower code <> iso) as Hiff.
  { rewrite andb_true_iff, !negb_true_iff, String.eqb_neq, bool_decide_eq_false.
    reflexivity. }
  destruct (negb (String.eqb country USA) && negb (bool_decide (lower code = iso))).
  - split; [intros _; now apply Hiff |]. intros _. split; [reflexivity |].
    eexists. split; [reflexivity |]. apply cross_check_message.
  - split; [| intros H; apply Hiff in H; discriminate].
    intros [Hret (msg & Herr & Hmsg)]. exfalso.
    pose proof (store_in_session_outcome geo_data city country state
                  (with_request st (build_query city state country))) as Hstore.
    destruct (store_in_session float_of_str geo_data city country state
                (with_request st (build_query city state country))) as [[] st'|r st'].
    + discriminate.
    + simpl in Hret, Herr. destruct Hstore as [(_ & Hst' & _) | [e ->]]; [| discriminate].
      rewrite Hst' in Herr. simpl in Herr.
      apply app_inj_tail in Herr as [_ <-].
      now rewrite storage_message_differs in Hmsg.
Qed.

(** A missing or non-numeric latitude fails the storage step before anything
    is written. *)
Lemma store_in_session_bad_latitude (first : list (string * json)) (rest : list json)
    (city country state : string) (st : St) :
  assoc "lat" first = None
  \/ (exists s, assoc "lat" first = Some (JStr s) /\ float_of_str s = None) ->
  store_in_session float_of_str (JList (JObj first :: rest)) city country state st
  = Done (Ret false) (with_city_error st "Error storing location coordinates.").
Proof.
  unfold store_in_session, try_except, mbind, M_bind, eval.
  intros [Hlat | (s & Hlat & Hs)]; cbn; rewrite Hlat; cbn; [reflexivity |].
  rewrite Hs. reflexivity.
Qed.

End QuizFacts.

(** C2: the first result has a numeric latitude and no longitude.  The
    storage step fails with its message on the city field, but the latitude
    written before the failure stays in the session. *)
Theorem validate_missing_longitude_keeps_latitude :
  validate Concrete.strip Concrete.lower Scenario.us_cities Scenario.COUNTRY_TO_ISO
      Concrete.float_of_str
           (Scenario.finds [Scenario.candidate [("lat", JStr "48.8566")]
                                               "Paris" "France" "fr"])
           true (Scenario.quiz "France" (Some "") "Paris" 85 40)
           (initial empty_session)
  = (Ret false,
     {| errors := {| state_errors := []; user_hot_errors := [];
                     city_errors := ["Error storing location coordinates."] |};
        session := {| s_lat := Some Scenario.lat; s_lon := None; s_city := None;
                      s_country := None; s_state := None;
                      s_user_hot := None; s_user_cold := None |};
        requests := ["Paris, France"] |})
  /\ session
       (validate Concrete.strip Concrete.lower Scenario.us_cities Scenario.COUNTRY_TO_ISO
           Concrete.float_of_str
                 (Scenario.finds [Scenario.candidate [("lat", JStr "48.8566")]
                                                     "Paris" "France" "fr"])
                 true (Scenario.quiz "France" (Some "") "Paris" 85 40)
                 (initial empty_session)).2
     <> empty_session.
Proof.
  assert (validate Concrete.strip Concrete.lower Scenario.us_cities Scenario.COUNTRY_TO_ISO
      Concrete.float_of_str
            (Scenario.finds [Scenario.candidate [("lat", JStr "48.8566")]
                                                "Paris" "France" "fr"])
            true (Scenario.quiz "France" (Some "") "Paris" 85 40)
            (initial empty_session)
          = (Ret false,
             {| errors := {| state_errors := []; user_hot_errors := [];
                             city_errors := ["Error storing location coordinates."] |};
                session := {| s_lat := Some Scenario.lat; s_lon := None; s_city := None;
                              s_country := None; s_state := None;
                              s_user_hot := None; s_user_cold := None |};
                requests := ["Paris, France"] |})) as Heval
    by (vm_compute; reflexivity).
  split; [exact Heval |]. rewrite Heval. discriminate.
Qed.

Lemma validate_state_applicability_witness :
  (Concrete.strip "France" = USA /\ state_value Concrete.strip (Some "Texas") = ""
   \/ Concrete.strip "France" <> USA /\ state_value Concrete.strip (Some "Texas") <> "")
  /\ validate Concrete.strip Concrete.lower Scenario.us_cities Scenario.COUNTRY_TO_ISO
      Concrete.float_of_str
              (Scenario.finds []) true
              (Scenario.quiz "France" (Some "Texas") "Paris" 85 40)
              (initial empty_session)
     = (Ret false,
        with_state_error (initial empty_session)
          (if String.eqb (Concrete.strip "France") USA
           then "Please select a U.S. state."
           else "State should only be selected for the United States.")).
Proof.
  assert (Concrete.strip "France" = USA /\ state_value Concrete.strip (Some "Texas") = ""
          \/ Concrete.strip "France" <> USA /\ state_value Concrete.strip (Some "Texas") <> "")
              as H
    by (right; split; vm_compute; discriminate).
  split; [exact H |].
  exact (validate_state_applicability Concrete.strip Concrete.lower Scenario.us_cities
      Scenario.COUNTRY_TO_ISO
           Concrete.float_of_str (Scenario.finds [])
           (Scenario.quiz "France" (Some "Texas") "Paris" 85 40)
           (initial empty_session) H).
Defined.

Lemma validate_threshold_order_witness :
  (Concrete.strip "France" = USA /\ state_value Concrete.strip (Some "") <> ""
   \/ Concrete.strip "France" <> USA /\ state_value Concrete.strip (Some "") = "")
  /\ 40 <= 40
  /\ validate Concrete.strip Concrete.lower Scenario.us_cities Scenario.COUNTRY_TO_ISO
      Concrete.float_of_str
              (Scenario.finds []) true
              (Scenario.quiz "France" (Some "") "Paris" 40 40) (initial empty_session)
     = (Ret false,
        with_user_hot_error (initial empty_session)
          "Hot temperature must be greater than Cold temperature.").
Proof.
  assert (Concrete.strip "France" = USA /\ state_value Concrete.strip (Some "") <> ""
          \/ Concrete.strip "France" <> USA /\ state_value Concrete.strip (Some "") = "") as H
    by (right; split; [vm_compute; discriminate | reflexivity]).
  assert (40 <= 40) as Hle by lia.
  split; [exact H |]. split; [exact Hle |].
  exact (proj1 (validate_threshold_order Concrete.strip Concrete.lower Scenario.us_cities
      Scenario.COUNTRY_TO_ISO
                  Concrete.float_of_str (Scenario.finds [])
                  (Scenario.quiz "France" (Some "") "Paris" 40 40)
                  (initial empty_session) H Hle)).
Defined.

Lemma validate_country_cross_check_witness :
  fetch_json (Scenario.finds Scenario.paris_found_capitals
                             (build_query "Paris" "" "France"))
  = Some (JList Scenario.paris_found_capitals)
  /\ first_country_code (JList Scenario.paris_found_capitals) = Some "FR"
  /\ (cross_check_failed "France" (initial empty_session)
        (validate Concrete.strip Concrete.lower Scenario.us_cities Scenario.COUNTRY_TO_ISO
                  Concrete.float_of_str (Scenario.finds Scenario.paris_found_capitals)
                  true Scenario.paris_form (initial empty_session))
      <-> "France" <> USA /\ Concrete.lower "FR" <> "fr").
Proof.
  split; [reflexivity |]. split; [reflexivity |].
  refine (validate_country_cross_check Concrete.strip Concrete.lower Scenario.us_cities
            Scenario.COUNTRY_TO_ISO Concrete.float_of_str
            (Scenario.finds Scenario.paris_found_capitals)
            Scenario.paris_form (initial empty_session)
            (JList Scenario.paris_found_capitals) "FR" "fr" _ _ _ _ _).
  - vm_compute. discriminate.
  - intros _. split; [reflexivity |]. split; [reflexivity | discriminate].
  - simpl. lia.
  - reflexivity.
  - reflexivity.
Defined.

(** * Further properties *)

(** ** More on the tip generator *)

Lemma bucket_tips_cases (temp_f : float) (user_hot user_cold : option Z) :
  bucket_tips temp_f user_hot user_cold = cold_bucket
  \/ bucket_tips temp_f user_hot user_cold = hot_bucket
  \/ bucket_tips temp_f user_hot user_cold = comfortable_bucket.
Proof.
  unfold bucket_tips. destruct (is_cold _ _); [auto |]. destruct (is_hot _ _); auto.
Qed.

(** X1: the tip list is never empty, holds at most six tips, and no tip
    occurs twice. *)
Theorem get_activity_tips_size_and_distinct
    (temp_f : float) (description : string) (user_hot user_cold : option Z) :
  (1 <= length (get_activity_tips temp_f description user_hot user_cold) <= 6)%nat
  /\ NoDup (get_activity_tips temp_f description user_hot user_cold).
Proof.
  rewrite get_activity_tips_unfold. unfold condition_tips, tip_if.
  destruct (bucket_tips_cases temp_f user_hot user_cold) as [-> | [-> | ->]];
    destruct (contains "rain" _), (contains "snow" _), (contains "wind" _),
      (contains "storm" _ || contains "thunder" _);
    (split; [simpl; lia | apply (bool_decide_unpack _); vm_compute; reflexivity]).
Qed.

(** X2: a NaN temperature is neither cold nor hot: the comfortable tip comes
    first whatever the thresholds are. *)
Theorem get_activity_tips_nan
    (temp_f : float) (description : string) (user_hot user_cold : option Z) :
  Prim2SF temp_f = S754_nan ->
  get_activity_tips temp_f description user_hot user_cold
  = "Comfortable for outdoor activities" :: condition_tips (lower description).
Proof.
  intros Hnan. rewrite get_activity_tips_unfold.
  unfold bucket_tips, is_cold, is_hot, fle_Z, fge_Z, cmp_float_Z. rewrite Hnan.
  destruct user_cold, user_hot; reflexivity.
Qed.

(** ** More on the forecast fetcher *)

Section MoreForecastFacts.

Variable strptime : string -> option datetime.
Variable today : date.
Variable forecast_api : float -> float -> option string -> option Response.
Variables user_hot user_cold : option Z.

(** X3: the sentinel is returned exactly when the guarded block fails; once
    the payload is decoded the fetcher returns a list or raises. *)
Theorem get_forecast_None_iff (max_days : Z) (lat lon : float)
    (api_key : option string) :
  get_forecast strptime today forecast_api user_hot user_cold max_days lat lon api_key
  = Ret None
  <-> fetch_json (forecast_api lat lon api_key) = None.
Proof.
  split; [| apply get_forecast_unavailable].
  unfold get_forecast.
  destruct (fetch_json (forecast_api lat lon api_key)) as [data|]; [| reflexivity].
  intros H.
  apply bind_Ret in H as (lst & _ & H).
  apply bind_Ret in H as (entries & _ & H).
  apply bind_Ret in H as (out & _ & H).
  discriminate.
Qed.

Lemma keys_dict_set_fresh (k : date) (v : ForecastDay) (d : dict) :
  k ∉ keys d -> keys (dict_set k v d) = keys d ++ [k].
Proof.
  intros Hk. rewrite dict_set_fresh by assumption.
  unfold keys. now rewrite map_app.
Qed.

Lemma loop_dict_ok (max_days : Z) (entries : list json) :
  forall acc out,
    loop strptime today user_hot user_cold max_days entries acc = Ret out ->
    dict_ok today acc ->
    dict_ok today out /\ len out <= Z.max (len acc + 1) max_days.
Proof.
  induction entries as [|e entries IH]; intros acc out; simpl.
  - intros [= <-] Hok. split; [assumption | lia].
  - intros H Hok. apply bind_Ret in H as (d & Hd & H).
    rewrite skip_test in H.
    destruct (bool_decide (d ∈ today :: keys acc)) eqn:Hskip.
    + apply (IH _ _ H Hok).
    + apply bool_decide_eq_false in Hskip.
      apply not_elem_of_cons in Hskip as [Hnt Hfresh].
      apply bind_Ret in H as (v & Hv & H).
      assert (fd_date v = d) as Hdate by now apply forecast_day_inv in Hv.
      assert (dict_ok today (dict_set d v acc)) as Hok'.
      { destruct Hok as (Hnd & Htoday & Hall).
        rewrite dict_set_fresh by assumption.
        unfold dict_ok, keys. rewrite map_app. simpl. repeat split.
        - apply NoDup_app. repeat split; [assumption | | apply NoDup_singleton].
          intros x Hx ->%list_elem_of_singleton. contradiction.
        - rewrite elem_of_app, list_elem_of_singleton. intros [? | ?]; [contradiction|].
          congruence.
        - apply Forall_app. split; [assumption |]. now constructor. }
      assert (len (dict_set d v acc) = len acc + 1) as Hlen.
      { rewrite dict_set_fresh by assumption. apply len_snoc. }
      destruct (len (dict_set d v acc) >=? max_days) eqn:Hfull.
      * injection H as <-. split; [assumption | lia].
      * rewrite Z.geb_leb in Hfull. apply Z.leb_gt in Hfull.
        destruct (IH _ _ H Hok') as [Hout Hbound]. split; [assumption | lia].
Qed.

(** X4: whatever the payload, a returned list has pairwise distinct dates,
    none of them today, and at most [max_days] days (one day when
    [max_days] is below one). *)
Theorem get_forecast_distinct_dates (max_days : Z) (lat lon : float)
    (api_key : option string) (days : list ForecastDay) :
  get_forecast strptime today forecast_api user_hot user_cold max_days lat lon api_key
  = Ret (Some days) ->
  NoDup (fd_date <$> days)
  /\ (today ∉ (fd_date <$> days))
  /\ Z.of_nat (length days) <= Z.max 1 max_days.
Proof.
  unfold get_forecast. intros H.
  destruct (fetch_json (forecast_api lat lon api_key)) as [data|]; [| discriminate].
  apply bind_Ret in H as (lst & _ & H).
  apply bind_Ret in H as (entries & _ & H).
  apply bind_Ret in H as (out & Hloop & H).
  injection H as <-.
  destruct (loop_dict_ok _ _ _ _ Hloop) as [(Hnd & Htoday & Hall) Hlen].
  { repeat split; [constructor | apply not_elem_of_nil | constructor]. }
  assert (fd_date <$> values out = keys out) as ->.
  { unfold values, keys. rewrite <- list_fmap_compose.
    apply list_fmap_ext. intros i p Hp. simpl.
    rewrite Forall_forall in Hall. apply Hall.
    apply list_elem_of_lookup. eauto. }
  split; [assumption |]. split; [assumption |].
  unfold len in Hlen. simpl in Hlen.
  unfold keys in *. rewrite length_values. lia.
Qed.

Lemma forecast_day_tips (e : json) (d : date) (fd : ForecastDay) :
  forecast_day user_hot user_cold e d = Ret fd ->
  exists s, fd_description fd = JStr s
            /\ fd_tips fd = get_activity_tips (fd_temp_f fd) s user_hot user_cold.
Proof.
  unfold forecast_day. intros H.
  apply bind_Ret in H as (main & _ & H).
  apply bind_Ret in H as (temp_k & _ & H).
  apply bind_Ret in H as (k & _ & H).
  apply bind_Ret in H as (wl & _ & H).
  apply bind_Ret in H as (w & _ & H).
  apply bind_Ret in H as (desc & _ & H).
  apply bind_Ret in H as (icon & _ & H).
  apply bind_Ret in H as (tips & Htips & H).
  injection H as <-. simpl.
  destruct desc; try discriminate. injection Htips as <-. eauto.
Qed.

(** X5: every returned day has a description string, and its tips are the
    tip generator's output for its own rounded temperature and description
    under the caller's thresholds. *)
Theorem get_forecast_tips (max_days : Z) (lat lon : float)
    (api_key : option string) (days : list ForecastDay) (fd : ForecastDay) :
  get_forecast strptime today forecast_api user_hot user_cold max_days lat lon api_key
  = Ret (Some days) ->
  fd ∈ days ->
  exists s, fd_description fd = JStr s
            /\ fd_tips fd = get_activity_tips (fd_temp_f fd) s user_hot user_cold.
Proof.
  unfold get_forecast. intros H Hfd.
  destruct (fetch_json (forecast_api lat lon api_key)) as [data|]; [| discriminate].
  apply bind_Ret in H as (lst & _ & H).
  apply bind_Ret in H as (entries & _ & H).
  apply bind_Ret in H as (out & Hloop & H).
  injection H as <-.
  destruct (loop_values _ _ _ _ _ _ _ _ Hloop fd Hfd)
    as [[]%elem_of_nil | (e & _ & _ & Hf)].
  now apply forecast_day_tips in Hf.
Qed.


Lemma loop_stops (max_days : Z) (kept : list json) (dated : list (date * ForecastDay))
    (rest : list json) :
  Forall2 (dated_by strptime user_hot user_cold) kept dated ->
  forall acc,
    Z.max 1 (max_days - len acc)
    <= Z.of_nat (length (first_per_date (today :: keys acc) dated)) ->
    loop strptime today user_hot user_cold max_days (kept ++ rest) acc =
    Ret (acc ++ take (Z.to_nat (Z.max 1 (max_days - len acc)))
                     (first_per_date (today :: keys acc) dated)).
Proof.
  induction 1 as [|e [d fd] kept dated [Hd Hf] _ IH]; intros acc Hmany.
  - simpl in Hmany. lia.
  - simpl in *. rewrite Hd. simpl. rewrite skip_test.
    destruct (bool_decide (d ∈ today :: keys acc)) eqn:Hskip; [now apply IH |].
    apply bool_decide_eq_false in Hskip.
    rewrite Hf. simpl.
    rewrite dict_set_fresh by (intros Hin; apply Hskip; now right).
    rewrite len_snoc.
    assert (forall x, x ∈ today :: keys (acc ++ [(d, fd)]) <-> x ∈ d :: today :: keys acc)
      as Hext.
    { intros x. unfold keys. rewrite map_app. simpl.
      rewrite !elem_of_cons, elem_of_app, !elem_of_cons, elem_of_nil. tauto. }
    destruct (len acc + 1 >=? max_days) eqn:Hfull.
    + apply Z.geb_le in Hfull.
      replace (Z.to_nat (Z.max 1 (max_days - len acc))) with 1%nat by lia.
      reflexivity.
    + rewrite Z.geb_leb in Hfull. apply Z.leb_gt in Hfull.
      rewrite IH.
      * rewrite len_snoc, <- app_assoc. simpl.
        replace (Z.to_nat (Z.max 1 (max_days - len acc)))
          with (S (Z.to_nat (Z.max 1 (max_days - (len acc + 1))))) by lia.
        simpl. do 4 f_equal. now apply first_per_date_ext.
      * rewrite len_snoc, (first_per_date_ext _ _ _ Hext). simpl in Hmany. lia.
Qed.

(** X6: once [max_days] days are kept the rest of the list is not read:
    entries after that point may have any shape. *)
Theorem get_forecast_ignores_rest (max_days : Z) (lat lon : float)
    (api_key : option string) (kv : list (string * json)) (kept rest : list json)
    (dated : list (date * ForecastDay)) :
  1 <= max_days ->
  fetch_json (forecast_api lat lon api_key) = Some (JObj kv) ->
  assoc "list" kv = Some (JList (kept ++ rest)) ->
  Forall2 (dated_by strptime user_hot user_cold) kept dated ->
  max_days <= Z.of_nat (length (first_per_date [today] dated)) ->
  get_forecast strptime today forecast_api user_hot user_cold max_days lat lon api_key
  = Ret (Some (values (take (Z.to_nat max_days) (first_per_date [today] dated)))).
Proof.
  intros Hmax Hfetch Hlist Hdated Hmany.
  unfold get_forecast, get_default. rewrite Hfetch. simpl. rewrite Hlist. simpl.
  rewrite (loop_stops max_days kept dated rest Hdated []).
  - simpl. unfold len. simpl. rewrite Z.sub_0_r.
    now replace (Z.to_nat (Z.max 1 max_days)) with (Z.to_nat max_days) by lia.
  - simpl. unfold len. simpl. lia.
Qed.

Lemma loop_today_only (max_days : Z) (entries : list json) (acc : dict) :
  Forall (fun e => entry_date strptime e = Ret today) entries ->
  loop strptime today user_hot user_cold max_days entries acc = Ret acc.
Proof.
  induction 1 as [|e entries He _ IH]; simpl; [reflexivity |].
  rewrite He. simpl. rewrite bool_decide_eq_true_2 by reflexivity. exact IH.
Qed.

(** X7: when every entry is dated today the fetcher returns the empty list:
    only the timestamps are read, so the entries need nothing else. *)
Theorem get_forecast_today_only (max_days : Z) (lat lon : float)
    (api_key : option string) (kv : list (string * json)) (entries : list json) :
  fetch_json (forecast_api lat lon api_key) = Some (JObj kv) ->
  assoc "list" kv = Some (JList entries) ->
  Forall (fun e => entry_date strptime e = Ret today) entries ->
  get_forecast strptime today forecast_api user_hot user_cold max_days lat lon api_key
  = Ret (Some []).
Proof.
  intros Hfetch Hlist Htoday.
  unfold get_forecast, get_default. rewrite Hfetch. simpl. rewrite Hlist. simpl.
  now rewrite (loop_today_only max_days entries [] Htoday).
Qed.

End MoreForecastFacts.

Section MoreRouteFacts.

Variable strptime : string -> option datetime.
Variable today : date.
Variable forecast_api : float -> float -> option string -> option Response.
Variable API_KEY : option string.

(** X8: with a located session and a forecast collaborator that fails
    (transport error, 4xx or 5xx, body that is not JSON) the results handler
    renders the fetch error and no weather. *)
Theorem results_unavailable (sess : Session) (lat lon : float) :
  s_lat sess = Some lat ->
  s_lon sess = Some lon ->
  fetch_json (forecast_api lat lon API_KEY) = None ->
  results strptime today forecast_api API_KEY sess
  = Ret {| weather := None; ctx_user_hot := None; ctx_user_cold := None;
           error := Some "Could not fetch weather data. Try again later." |}.
Proof.
  intros Hlat Hlon Hfetch. unfold results. rewrite Hlat, Hlon.
  now rewrite get_forecast_unavailable.
Qed.

(** X9: with a located session and a well-formed payload the results handler
    renders no error and a forecast of at most five days, for the location
    and under the thresholds of the session. *)
Theorem results_well_formed (sess : Session) (lat lon : float) (data : json) :
  s_lat sess = Some lat ->
  s_lon sess = Some lon ->
  fetch_json (forecast_api lat lon API_KEY) = Some data ->
  well_formed_payload strptime data = true ->
  exists days,
    results strptime today forecast_api API_KEY sess
    = Ret {| weather := Some {| wd_state := s_state sess; wd_city := s_city sess;
                                wd_country := s_country sess; wd_forecast := days |};
             ctx_user_hot := s_user_hot sess; ctx_user_cold := s_user_cold sess;
             error := None |}
    /\ (length days <= 5)%nat
    /\ forall fd, fd ∈ days ->
         exists s, fd_description fd = JStr s
                   /\ fd_tips fd = get_activity_tips (fd_temp_f fd) s
                                     (s_user_hot sess) (s_user_cold sess).
Proof.
  intros Hlat Hlon Hfetch Hwf.
  destruct (get_forecast_closed_form strptime today forecast_api
              (s_user_hot sess) (s_user_cold sess) 5 lat lon API_KEY data Hfetch Hwf)
    as (dated & Hdated & Hget).
  eexists. split; [| split].
  - unfold results. rewrite Hlat, Hlon, Hget. reflexivity.
  - rewrite length_values, length_take. lia.
  - intros fd (p & -> & Hp%subseteq_take)%list_elem_of_fmap.
    apply first_per_date_first in Hp as (i & Hi & _).
    destruct (Forall2_lookup_r _ _ _ _ _ Hdated Hi) as (e & _ & _ & Hf).
    now apply forecast_day_tips in Hf.
Qed.

End MoreRouteFacts.

(** ** More on the validator and the quiz handler *)

(** Rules of the logic, for a known state. *)

Lemma triple_when_exit {B} (b : bool) (body : M unit) (f : unit -> M B) (s : St)
    (Q : B -> St -> Prop) (R : res bool -> St -> Prop) :
  (b = true -> match body s with Done r st' => R r st' | Next _ _ => False end) ->
  (b = false -> triple (eq s) (f tt) Q R) ->
  triple (eq s) (when b body ≫= f) Q R.
Proof.
  intros Hexit Hnext st <-. unfold mbind, M_bind, when.
  destruct b.
  - specialize (Hexit eq_refl). destruct (body s); [contradiction | assumption].
  - cbn. now apply Hnext.
Qed.

Lemma triple_eval_bind {A B} (r : res A) (f : A -> M B) (s : St)
    (Q : B -> St -> Prop) (R : res bool -> St -> Prop) :
  (forall e, r = Raise e -> R (Raise e) s) ->
  (forall a, r = Ret a -> triple (eq s) (f a) Q R) ->
  triple (eq s) (eval r ≫= f) Q R.
Proof.
  intros Hraise Hnext st <-. unfold mbind, M_bind, eval.
  destruct r as [a|e]; [now apply Hnext | now apply Hraise].
Qed.

Lemma triple_requests_get {B} (geocoder : string -> option Response) (q : string)
    (f : option json -> M B) (s : St)
    (Q : B -> St -> Prop) (R : res bool -> St -> Prop) :
  triple (eq (with_request s q)) (f (fetch_json (geocoder q))) Q R ->
  triple (eq s) (requests_get geocoder q ≫= f) Q R.
Proof. intros H st <-. unfold mbind, M_bind, requests_get. now apply H. Qed.

Lemma triple_ret_bind {A B} (a : A) (f : A -> M B) (s : St)
    (Q : B -> St -> Prop) (R : res bool -> St -> Prop) :
  triple (eq s) (f a) Q R -> triple (eq s) (mret a ≫= f) Q R.
Proof. intros H st <-. unfold mbind, M_bind, mret, M_ret. now apply H. Qed.

Lemma triple_return {B} (b : bool) (s : St)
    (Q : B -> St -> Prop) (R : res bool -> St -> Prop) :
  R (Ret b) s -> triple (eq s) (return_ b) Q R.
Proof. intros H st <-. exact H. Qed.

Lemma triple_step {A B} (m : M A) (f : A -> M B) (s : St)
    (Q : B -> St -> Prop) (R : res bool -> St -> Prop) :
  match m s with
  | Next a s' => triple (eq s') (f a) Q R
  | Done r s' => R r s'
  end ->
  triple (eq s) (m ≫= f) Q R.
Proof.
  intros H st <-. unfold mbind, M_bind.
  destruct (m s) as [a s'|r s']; [now apply H | exact H].
Qed.

Lemma validate_ends (strip lower : string -> string)
    (us_cities : gmap string (list string))
    (COUNTRY_TO_ISO : gmap string string) (float_of_str : string -> option float)
    (geocoder : string -> option Response) (super_validate : bool)
    (form : FormData) (st : St) (R : res bool -> St -> Prop) :
  triple (eq st)
    (validate_body strip lower us_cities COUNTRY_TO_ISO float_of_str geocoder super_validate form)
    (fun _ _ => False) R ->
  R (validate strip lower us_cities COUNTRY_TO_ISO float_of_str geocoder super_validate form st).1
    (validate strip lower us_cities COUNTRY_TO_ISO float_of_str geocoder super_validate form
        st).2.
Proof.
  intros H. specialize (H st eq_refl). unfold validate.
  destruct (validate_body _ _ _ _ _ _ _ form st); [contradiction | exact H].
Qed.

Section MoreQuizFacts.

(** [str.strip] and [str.lower]: nothing is assumed of them. *)
Variable strip : string -> string.
Variable lower : string -> string.
Variable us_cities : gmap string (list string).
Variable COUNTRY_TO_ISO : gmap string string.
Variable float_of_str : string -> option float.
Variable geocoder : string -> option Response.

Lemma float_raises (v : json) (e : exn) :
  float_ float_of_str v = Raise e -> e = ValueError \/ e = TypeError \/ e = OverflowError.
Proof.
  destruct v; simpl; try (intros [= <-]; auto).
  - unfold float_of_Z. destruct (binary_normalize _ _ _ _ _); intros [= <-]; auto.
  - destruct (float_of_str s); intros [= <-]; auto.
Qed.

Lemma store_in_session_result (geo_data first : json) (city country state : string)
    (s : St) :
  getitem0 geo_data = Ret first ->
  match store_in_session float_of_str geo_data city country state s with
  | Next _ s' =>
      errors s' = errors s /\ requests s' = requests s
      /\ exists vlat vlon lat lon,
          getitem first "lat" = Ret vlat /\ float_ float_of_str vlat = Ret lat
          /\ getitem first "lon" = Ret vlon /\ float_ float_of_str vlon = Ret lon
          /\ session s' = located lat lon city country state (session s)
  | Done r s' =>
      requests s' = requests s
      /\ at_most_latitude (session s) (session s')
      /\ (r = Ret false
          /\ errors s' = errors (with_city_error s "Error storing location coordinates.")
          \/ errors s' = errors s
             /\ exists e, r = Raise e /\ e <> ValueError /\ e <> IndexError)
  end.
Proof.
  intros Hfirst.
  unfold store_in_session, try_except, mbind, M_bind, eval. rewrite Hfirst. cbn.
  destruct (getitem first "lat") as [lat|e] eqn:Hlat; cbn.
  2: { destruct first; try discriminate; simpl in Hlat;
       try (injection Hlat as <-; cbn; unfold at_most_latitude;
            split; [reflexivity | split; [now left |]]; right;
            split; [reflexivity | eexists; repeat split; discriminate]).
       destruct (assoc "lat" kv); [discriminate |]. injection Hlat as <-. cbn.
       unfold at_most_latitude. auto 6. }
  destruct (float_ float_of_str lat) as [latf|e] eqn:Hlatf; cbn.
  2: { destruct (float_raises _ _ Hlatf) as [-> | [-> | ->]]; cbn;
       unfold at_most_latitude; (split; [reflexivity | split; [now left |]]);
       [now left | right | right];
       (split; [reflexivity | eexists; repeat split; discriminate]). }
  destruct (getitem first "lon") as [lon|e] eqn:Hlon; cbn.
  2: { destruct first; try discriminate; simpl in Hlon.
       destruct (assoc "lon" kv); [discriminate |]. injection Hlon as <-. cbn.
       unfold at_most_latitude, with_lat. split; [reflexivity |].
       split; [right; eauto |]. now left. }
  destruct (float_ float_of_str lon) as [lonf|e] eqn:Hlonf; cbn.
  2: { destruct (float_raises _ _ Hlonf) as [-> | [-> | ->]]; cbn;
       unfold at_most_latitude, with_lat;
       (split; [reflexivity | split; [right; eauto |]]);
       [now left | right | right];
       (split; [reflexivity | eexists; repeat split; discriminate]). }
  split; [reflexivity |]. split; [reflexivity |].
  exists lat, lon, latf, lonf. unfold located. auto.
Qed.

Lemma getitem0_raises (v : json) (e : exn) :
  truthy v = true -> getitem0 v = Raise e -> e = KeyError \/ e = TypeError.
Proof.
  destruct v as [| | | |s|l|kv]; simpl; try (intros _ [= <-]; auto).
  - destruct s; [discriminate | discriminate].
  - destruct l; discriminate.
Qed.

Lemma get_raises (v : json) (k : string) (e : exn) :
  get v k = Raise e -> e = AttributeError.
Proof. destruct v; simpl; intros [= <-]; reflexivity. Qed.

Lemma get_default_raises (v : json) (k : string) (d : json) (e : exn) :
  get_default v k d = Raise e -> e = AttributeError.
Proof.
  unfold get_default. destruct (get v k) eqn:Hg; simpl; [discriminate |].
  intros [= <-]. now apply get_raises in Hg.
Qed.

Lemma lower_method_raises (v : json) (e : exn) :
  lower_method lower v = Raise e -> e = AttributeError.
Proof. destruct v; simpl; intros [= <-]; reflexivity. Qed.

Ltac run_exit :=
  unfold mbind, M_bind, state_errors_append, user_hot_errors_append,
    city_errors_append, update_errors, return_, mret, M_ret, res_ret, when; cbn.

Ltac fail_outcome :=
  run_exit; unfold outcome, one_more_error, at_most_latitude, with_request; cbn;
  repeat split; eauto 8.

Ltac raise_outcome :=
  unfold outcome, at_most_latitude, with_request; cbn;
  (split; [assumption |]); repeat split; try discriminate; eauto.

(** From the geocoder call to the end of the method. *)
Ltac geocoding_phase Hrules :=
  apply triple_requests_get;
  let geo_data := fresh "geo_data" in
  let Hfetch := fresh "Hfetch" in
  destruct (fetch_json (geocoder _)) as [geo_data|] eqn:Hfetch;
    [apply triple_ret_bind | apply triple_step; fail_outcome];
  apply triple_when_exit; [intros _; fail_outcome |];
  let Htruthy := fresh "Htruthy" in
  intros Htruthy%negb_false_iff;
  apply triple_eval_bind;
    [ let e := fresh "e" in let He := fresh "He" in
      intros e He; destruct (getitem0_raises _ _ Htruthy He) as [-> | ->]; raise_outcome |];
  let first := fresh "first" in let Hfirst := fresh "Hfirst" in
  intros first Hfirst;
  apply triple_eval_bind; [intros ? ->%get_default_raises; raise_outcome |];
  let address := fresh "address" in let Haddress := fresh "Haddress" in
  intros address Haddress;
  apply triple_eval_bind; [intros ? ->%get_default_raises; raise_outcome |];
  let code := fresh "code" in let Hcode := fresh "Hcode" in
  intros code Hcode;
  apply triple_eval_bind; [intros ? ->%lower_method_raises; raise_outcome |];
  let geo_code := fresh "geo_code" in let Hlower := fresh "Hlower" in
  intros geo_code Hlower;
  apply triple_eval_bind; [intros ? ->%get_default_raises; raise_outcome |];
  intros _ _;
  apply triple_eval_bind; [intros ? ->%get_raises; raise_outcome |];
  let a_city := fresh "a_city" in intros a_city _;
  apply triple_eval_bind;
    [ let e := fresh "e" in let He := fresh "He" in
      intros e He; destruct (from_option truthy false a_city);
      [discriminate | apply get_raises in He; subst e; raise_outcome] |];
  intros _ _.

Lemma validate_outcome (super_validate : bool) (form : FormData) (st : St) :
  outcome strip lower us_cities COUNTRY_TO_ISO float_of_str geocoder super_validate
    form st
    (validate strip lower us_cities COUNTRY_TO_ISO float_of_str geocoder super_validate
              form st).1
    (validate strip lower us_cities COUNTRY_TO_ISO float_of_str geocoder super_validate
              form st).2.
Proof.
  apply validate_ends. unfold validate_body. cbv zeta.
  set (city := strip (city_data form)).
  set (country := strip (country_data form)).
  set (state := state_value strip (state_data form)).
  apply triple_when_exit.
  { intros Hs%negb_true_iff. subst super_validate. cbn. unfold at_most_latitude. auto. }
  intros Hs%negb_false_iff. subst super_validate.
  destruct (String.eqb_spec country USA) as [Hus | Hnot].
  - (* the U.S. *)
    apply triple_when_exit; [intros _; fail_outcome |].
    intros Hstate%negb_false_iff%nonempty_true.
    apply triple_when_exit; [intros _; fail_outcome |].
    intros Hlt%Z.leb_gt.
    cbn [when]. apply triple_when_exit; [intros _; fail_outcome |].
    intros Hcity%negb_false_iff%bool_decide_eq_true.
    assert (rules_hold strip us_cities true form) as Hrules.
    { unfold rules_hold. fold city country state. repeat split; auto; contradiction. }
    geocoding_phase Hrules.
    intros s <-.
    unfold mbind, M_bind, when, return_, mret, M_ret. cbn -[store_in_session].
    pose proof (store_in_session_result geo_data first city country state
                  (with_request st (build_query city state country)) Hfirst) as Hstore.
    destruct (store_in_session float_of_str geo_data city country state
                (with_request st (build_query city state country))) as [[] s'|r s'].
    + destruct Hstore
        as (He & Hr & vlat & vlon & lat & lon & Hvlat & Hlat & Hvlon & Hlon & Hsess).
      unfold outcome. cbn. fold city country state.
      split; [exact Hrules |]. split; [exact He |]. split; [exact Hr |].
      exists geo_data, lat, lon. split; [exact Hfetch |]. split; [| exact Hsess].
      exists first, address, code, geo_code, vlat, vlon. fold country.
      repeat split; try assumption. intros Hc; contradiction.
    + destruct Hstore as (Hr & Hsess & [[-> He] | (He & e & -> & Hne1 & Hne2)]).
      * unfold outcome, one_more_error. rewrite He. cbn. fold city country state.
        split; [eauto 8 |]. split; [right; rewrite Hr; auto | assumption].
      * unfold outcome. cbn. fold city country state.
        rewrite He, Hr. auto 8.
  - (* another country *)
    apply triple_when_exit; [intros _; fail_outcome |].
    intros Hstate%nonempty_false.
    apply triple_when_exit; [intros _; fail_outcome |].
    intros Hlt%Z.leb_gt.
    cbn [when]. apply triple_ret_bind.
    assert (rules_hold strip us_cities true form) as Hrules.
    { unfold rules_hold. fold city country state. repeat split; auto; contradiction. }
    geocoding_phase Hrules.
    intros s <-.
    unfold mbind, M_bind, when, return_, mret, M_ret, city_errors_append, update_errors.
    cbn -[store_in_session].
    destruct (COUNTRY_TO_ISO !! strip country) as [iso|] eqn:Hiso;
      cbn -[store_in_session]; [| fail_outcome].
    destruct (nonempty iso) eqn:Hne; cbn -[store_in_session]; [| fail_outcome].
    destruct (bool_decide_reflect (Some geo_code = Some iso)) as [[= Hmatch] | _];
      cbn -[store_in_session]; [| fail_outcome].
    apply nonempty_true in Hne.
    pose proof (store_in_session_result geo_data first city country state
                  (with_request st (build_query city state country)) Hfirst) as Hstore.
    destruct (store_in_session float_of_str geo_data city country state
                (with_request st (build_query city state country))) as [[] s'|r s'].
    + destruct Hstore
        as (He & Hr & vlat & vlon & lat & lon & Hvlat & Hlat & Hvlon & Hlon & Hsess).
      unfold outcome. cbn. fold city country state.
      split; [exact Hrules |]. split; [exact He |]. split; [exact Hr |].
      exists geo_data, lat, lon. split; [exact Hfetch |]. split; [| exact Hsess].
      exists first, address, code, geo_code, vlat, vlon. fold country.
      repeat split; try assumption. intros _. exists iso. auto.
    + destruct Hstore as (Hr & Hsess & [[-> He] | (He & e & -> & Hne1 & Hne2)]).
      * unfold outcome, one_more_error. rewrite He. cbn. fold city country state.
        split; [eauto 8 |]. split; [right; rewrite Hr; auto | assumption].
      * unfold outcome. cbn. fold city country state.
        rewrite He, Hr. auto 8.
Qed.

Lemma validate_equals (super_validate : bool) (form : FormData) (st : St)
    (r0 : res bool) (s0 : St) :
  triple (eq st)
    (validate_body strip lower us_cities COUNTRY_TO_ISO float_of_str geocoder super_validate form)
    (fun _ _ => False) (fun r s => r = r0 /\ s = s0) ->
  validate strip lower us_cities COUNTRY_TO_ISO float_of_str geocoder super_validate form st
  = (r0, s0).
Proof.
  intros H. apply validate_ends in H. simpl in H.
  destruct (validate _ _ _ _ _ _ _ form st) as [r s]. simpl in H.
  destruct H as [-> ->]. reflexivity.
Qed.

Ltac rules_phase Hrules :=
  unfold validate_body; cbv zeta;
  let Hlt := fresh "Hlt" in
  let Hus := fresh "Hus" in
  let Hnot := fresh "Hnot" in
  destruct Hrules as (_ & Hlt & Hus & Hnot);
  apply Z.leb_gt in Hlt;
  apply triple_when_exit; [discriminate | intros _];
  let Heq := fresh "Heq" in
  match goal with
  | |- context [String.eqb ?c USA] => destruct (String.eqb_spec c USA) as [Heq | Heq]
  end;
  [ destruct (Hus Heq) as [?Hstate ?Hcity];
    apply triple_when_exit;
      [intros ?Hb%negb_true_iff%nonempty_false; contradiction | intros _];
    apply triple_when_exit; [intros ?Hb; congruence | intros _];
    cbn [when];
    apply triple_when_exit;
      [intros ?Hb%negb_true_iff%bool_decide_eq_false; contradiction | intros _]
  | pose proof (Hnot Heq) as ?Hstate;
    apply triple_when_exit;
      [intros ?Hb%nonempty_true; contradiction | intros _];
    apply triple_when_exit; [intros ?Hb; congruence | intros _];
    cbn [when]; apply triple_ret_bind ];
  apply triple_requests_get.

(** X10: when the rules pass and the geocoder call fails (no connection,
    4xx or 5xx, a body that is not JSON), [validate] returns [False] with
    "Error validating location. Please try again." on the city field; the
    session is untouched and the one query is on record. *)
Theorem validate_geocoder_unreachable (form : FormData) (st : St) :
  let query := build_query (strip (city_data form)) (state_value strip (state_data form))
                           (strip (country_data form)) in
  rules_hold strip us_cities true form ->
  fetch_json (geocoder query) = None ->
  validate strip lower us_cities COUNTRY_TO_ISO float_of_str geocoder true form st
  = (Ret false,
     with_city_error (with_request st query)
       "Error validating location. Please try again.").
Proof.
  intros query Hrules Hfetch. subst query.
  apply validate_equals. rules_phase Hrules.
  all: rewrite Hfetch; apply triple_step; run_exit; auto.
Qed.

(** X11: when the rules pass and the geocoder's answer is falsy (an empty
    list, an empty object, null), [validate] returns [False] with
    "<city> not found in <country>." on the city field. *)
Theorem validate_place_not_found (form : FormData) (st : St) (geo_data : json) :
  let city := strip (city_data form) in
  let country := strip (country_data form) in
  let query := build_query city (state_value strip (state_data form)) country in
  rules_hold strip us_cities true form ->
  fetch_json (geocoder query) = Some geo_data ->
  truthy geo_data = false ->
  validate strip lower us_cities COUNTRY_TO_ISO float_of_str geocoder true form st
  = (Ret false,
     with_city_error (with_request st query)
       (city +:+ " not found in " +:+ country +:+ ".")).
Proof.
  intros city country query Hrules Hfetch Hempty. subst query city country.
  apply validate_equals. rules_phase Hrules.
  all: rewrite Hfetch; apply triple_ret_bind.
  all: apply triple_when_exit; [intros _; run_exit; auto |].
  all: intros Hb; rewrite Hempty in Hb; discriminate.
Qed.

(** X12: when the rules pass and the geocoder's answer is truthy but
    [geo_data[0]] raises (a non-empty object, a number, [true]), that
    exception leaves [validate]: no error is appended and the session is
    untouched. *)
Theorem validate_answer_not_indexable (form : FormData) (st : St) (geo_data : json)
    (e : exn) :
  let query := build_query (strip (city_data form)) (state_value strip (state_data form))
                           (strip (country_data form)) in
  rules_hold strip us_cities true form ->
  fetch_json (geocoder query) = Some geo_data ->
  truthy geo_data = true ->
  getitem0 geo_data = Raise e ->
  validate strip lower us_cities COUNTRY_TO_ISO float_of_str geocoder true form st
  = (Raise e, with_request st query).
Proof.
  intros query Hrules Hfetch Htruthy Hraise. subst query.
  apply validate_equals. rules_phase Hrules.
  all: rewrite Hfetch; apply triple_ret_bind.
  all: apply triple_when_exit;
    [intros Hb; rewrite Htruthy in Hb; discriminate | intros _].
  all: apply triple_eval_bind;
    [intros e' He'; rewrite Hraise in He'; injection He' as <-; auto
    | intros a Ha; rewrite Hraise in Ha; discriminate].
Qed.

(** X13: for the U.S., a city that is not listed under the submitted state
    (or a state that the catalog does not have) makes [validate] return
    [False] with the nearest-major-city message on the city field, without
    calling the geocoder. *)
Theorem validate_us_city_not_listed (form : FormData) (st : St) :
  let city := strip (city_data form) in
  let state := state_value strip (state_data form) in
  strip (country_data form) = USA ->
  state <> "" ->
  user_cold_data form < user_hot_data form ->
  city ∉ default [] (us_cities !! state) ->
  validate strip lower us_cities COUNTRY_TO_ISO float_of_str geocoder true form st
  = (Ret false,
     with_city_error st
       (city +:+ " is not a valid city in " +:+ state
        +:+ ". If it is, enter the nearest major city.")).
Proof.
  intros city state Hus Hstate Hlt Hcity. apply validate_equals.
  unfold validate_body. cbv zeta. rewrite Hus. fold city state.
  apply nonempty_true in Hstate. apply Z.leb_gt in Hlt.
  apply triple_when_exit; [discriminate | intros _].
  change (String.eqb USA USA) with true. cbn match.
  apply triple_when_exit; [intros Hb; rewrite Hstate in Hb; discriminate | intros _].
  apply triple_when_exit; [intros Hb; congruence | intros _].
  cbn [when]. apply triple_when_exit.
  - intros _. run_exit. auto.
  - intros Hb%negb_false_iff%bool_decide_eq_true. contradiction.
Qed.

(** X14: for another country whose ISO code in the catalog is empty (or
    missing), [validate] returns [False] with "Country validation
    configuration error." on the city field, and only after the geocoder
    has been called and has answered with a result. *)
Theorem validate_country_without_code (form : FormData) (st : St) (geo_data : json)
    (code : string) :
  let country := strip (country_data form) in
  let query := build_query (strip (city_data form)) (state_value strip (state_data form))
                           country in
  rules_hold strip us_cities true form ->
  country <> USA ->
  COUNTRY_TO_ISO !! strip country = Some ""
  \/ COUNTRY_TO_ISO !! strip country = None ->
  fetch_json (geocoder query) = Some geo_data ->
  first_country_code geo_data = Some code ->
  validate strip lower us_cities COUNTRY_TO_ISO float_of_str geocoder true form st
  = (Ret false,
     with_city_error (with_request st query) "Country validation configuration error.").
Proof.
  intros country query Hrules Hnot Hiso Hfetch Hcode. subst query country.
  apply validate_equals. rules_phase Hrules; [contradiction |].
  rewrite Hfetch. apply triple_ret_bind.
  destruct geo_data as [| | | | |[|[| | | | | |first] rest]|]; try discriminate.
  unfold first_country_code in Hcode.
  intros s <-. run_M.
  assert (from_option nonempty false
            (COUNTRY_TO_ISO !! strip (strip (country_data form))) = false) as Hno
    by (destruct Hiso as [-> | ->]; reflexivity).
  destruct (assoc "address" first) as [[| | | | | |address]|]; try discriminate; run_M.
  - destruct (assoc "country_code" address) as [[| | | |c| |]|]; try discriminate;
      run_M; destruct (from_option truthy false (assoc "city" address)); run_M;
      rewrite Hno; run_M; auto.
  - rewrite Hno. run_M. auto.
Qed.

(** X15: when the rules pass, the first result has the expected country
    code (for a country other than the U.S.) and both coordinates convert,
    [validate] returns [True], appends no error, and writes exactly the five
    location keys: the two coordinates as floats and the stripped city,
    country and state. *)
Theorem validate_success (form : FormData) (st : St) (first : list (string * json))
    (rest : list json) (code iso : string) (vlat vlon : json) (lat lon : float) :
  let city := strip (city_data form) in
  let country := strip (country_data form) in
  let state := state_value strip (state_data form) in
  let query := build_query city state country in
  rules_hold strip us_cities true form ->
  (country <> USA ->
   COUNTRY_TO_ISO !! strip country = Some iso /\ iso <> "" /\ lower code = iso) ->
  fetch_json (geocoder query) = Some (JList (JObj first :: rest)) ->
  first_country_code (JList (JObj first :: rest)) = Some code ->
  assoc "lat" first = Some vlat -> float_ float_of_str vlat = Ret lat ->
  assoc "lon" first = Some vlon -> float_ float_of_str vlon = Ret lon ->
  validate strip lower us_cities COUNTRY_TO_ISO float_of_str geocoder true form st
  = (Ret true,
     {| errors := errors st;
        session := located lat lon city country state (session st);
        requests := requests st ++ [query] |}).
Proof.
  intros city country state query Hrules Hiso Hfetch Hcode Hlat Hlatf Hlon Hlonf.
  destruct Hrules as (_ & Hlt & Hus & Hnot).
  rewrite (validate_after_geocoding strip lower us_cities COUNTRY_TO_ISO float_of_str
             geocoder form st (JList (JObj first :: rest)) code iso Hus).
  - fold city country state query. cbv zeta.
    assert (negb (String.eqb country USA) && negb (bool_decide (lower code = iso))
            = false) as ->.
    { destruct (String.eqb_spec country USA) as [Heq | Hne]; [reflexivity |].
      destruct (Hiso Hne) as (_ & _ & Hc). now rewrite bool_decide_eq_true_2. }
    unfold store_in_session, try_except, mbind, M_bind, eval. cbn.
    rewrite Hlat. cbn. rewrite Hlatf. cbn. rewrite Hlon. cbn. rewrite Hlonf. cbn.
    reflexivity.
  - intros Hne. destruct (Hiso Hne) as (H1 & H2 & _). auto.
  - assumption.
  - assumption.
  - assumption.
Qed.

(** X16: A latitude that [float] refuses with anything but [ValueError] (a null,
    a list, an object, an integer out of range) makes [validate] raise. *)
Theorem validate_latitude_raises (form : FormData) (st : St)
    (first : list (string * json)) (rest : list json) (code iso : string)
    (vlat : json) (e : exn) :
  let city := strip (city_data form) in
  let country := strip (country_data form) in
  let state := state_value strip (state_data form) in
  let query := build_query city state country in
  rules_hold strip us_cities true form ->
  (country <> USA ->
   COUNTRY_TO_ISO !! strip country = Some iso /\ iso <> "" /\ lower code = iso) ->
  fetch_json (geocoder query) = Some (JList (JObj first :: rest)) ->
  first_country_code (JList (JObj first :: rest)) = Some code ->
  assoc "lat" first = Some vlat ->
  float_ float_of_str vlat = Raise e ->
  e <> ValueError ->
  validate strip lower us_cities COUNTRY_TO_ISO float_of_str geocoder true form st
  = (Raise e, with_request st query).
Proof.
  intros city country state query Hrules Hiso Hfetch Hcode Hlat Hlatf Hne.
  destruct Hrules as (_ & Hlt & Hus & Hnot).
  rewrite (validate_after_geocoding strip lower us_cities COUNTRY_TO_ISO float_of_str
             geocoder form st (JList (JObj first :: rest)) code iso Hus).
  - fold city country state query. cbv zeta.
    assert (negb (String.eqb country USA) && negb (bool_decide (lower code = iso))
            = false) as ->.
    { destruct (String.eqb_spec country USA) as [Heq | Hne']; [reflexivity |].
      destruct (Hiso Hne') as (_ & _ & Hc). now rewrite bool_decide_eq_true_2. }
    unfold store_in_session, try_except, mbind, M_bind, eval. cbn.
    rewrite Hlat. cbn. rewrite Hlatf. cbn.
    destruct (float_raises _ _ Hlatf) as [-> | [-> | ->]];
      [contradiction | reflexivity | reflexivity].
  - intros Hne'. destruct (Hiso Hne') as (H1 & H2 & _). auto.
  - assumption.
  - assumption.
  - assumption.
Qed.

(** *** What every call keeps true *)

(** X17: [validate] returns [True] only for a submission that passed every
    rule: the form rules hold, the geocoder was called once with the query
    built from the form and gave an answer that passed the country
    cross-check and whose coordinates convert; no error was added, and the
    session holds these coordinates and the stripped city, country and
    state. *)
Theorem validate_true_sound (super_validate : bool) (form : FormData) (st st' : St) :
  let city := strip (city_data form) in
  let country := strip (country_data form) in
  let state := state_value strip (state_data form) in
  let query := build_query city state country in
  validate strip lower us_cities COUNTRY_TO_ISO float_of_str geocoder super_validate
           form st
  = (Ret true, st') ->
  rules_hold strip us_cities super_validate form
  /\ errors st' = errors st
  /\ requests st' = requests st ++ [query]
  /\ exists geo_data lat lon,
      fetch_json (geocoder query) = Some geo_data
      /\ accepted strip lower COUNTRY_TO_ISO float_of_str form geo_data lat lon
      /\ session st' = located lat lon city country state (session st).
Proof.
  intros city country state query Hv.
  pose proof (validate_outcome super_validate form st) as Hout.
  rewrite Hv in Hout. exact Hout.
Qed.

(** X18: with the framework's checks passed, a call that returns [False] has
    appended exactly one error to one field; a call that returns [True] or
    raises has appended none. *)
Theorem validate_one_error (form : FormData) (st : St) :
  match (validate strip lower us_cities COUNTRY_TO_ISO float_of_str geocoder true form st).1 with
  | Ret false =>
      one_more_error
        (errors st)
        (errors (validate strip lower us_cities COUNTRY_TO_ISO float_of_str geocoder true form
            st).2)
  | _ =>
      errors (validate strip lower us_cities COUNTRY_TO_ISO float_of_str geocoder true form st).2
      = errors st
  end.
Proof.
  pose proof (validate_outcome true form st) as Hout.
  destruct (validate _ _ _ _ _ _ true form st) as [[[]|e] st']; simpl in *.
  - now destruct Hout as (_ & He & _).
  - now destruct Hout as (He & _).
  - now destruct Hout as (_ & He & _).
Qed.


(** X20: A call that does not return [True] leaves the session as it was, except
    that the latitude alone may have been written. *)
Theorem validate_failure_session (super_validate : bool) (form : FormData) (st : St) :
  (validate strip lower us_cities COUNTRY_TO_ISO float_of_str geocoder super_validate form st).1
  <> Ret true ->
  at_most_latitude
    (session st)
    (session (validate strip lower us_cities COUNTRY_TO_ISO float_of_str geocoder super_validate
                       form st).2).
Proof.
  intros Hr.
  pose proof (validate_outcome super_validate form st) as Hout.
  destruct (validate _ _ _ _ _ _ super_validate form st) as [[[]|e] st']; simpl in *.
  - contradiction.
  - now destruct Hout as (_ & _ & Hs).
  - now destruct Hout as (_ & _ & _ & Hs & _).
Qed.


(** *** The quiz handler *)

(** X22: the handler redirects only after a submitted form passed every
    rule, those on the form and those on the geocoder's answer (the country
    cross-check, coordinates that convert); the session then holds the
    location and both thresholds, the hot one above the cold one. *)
Theorem home_redirect_complete (super_validate is_submitted : bool)
    (form : FormData) (sess : Session) (endpoint : string) (st' : St) :
  let city := strip (city_data form) in
  let country := strip (country_data form) in
  let state := state_value strip (state_data form) in
  home strip lower us_cities COUNTRY_TO_ISO float_of_str geocoder super_validate
       is_submitted form sess = (Ret (Redirect endpoint), st') ->
  endpoint = "results"
  /\ is_submitted = true
  /\ rules_hold strip us_cities super_validate form
  /\ user_cold_data form < user_hot_data form
  /\ exists geo_data lat lon,
      fetch_json (geocoder (build_query city state country)) = Some geo_data
      /\ accepted strip lower COUNTRY_TO_ISO float_of_str form geo_data lat lon
      /\ session st'
         = {| s_lat := Some lat; s_lon := Some lon; s_city := Some city;
              s_country := Some country; s_state := Some state;
              s_user_hot := Some (user_hot_data form);
              s_user_cold := Some (user_cold_data form) |}.
Proof.
  intros city country state. unfold home.
  destruct is_submitted; [| discriminate].
  destruct (validate _ _ _ _ _ _ super_validate form (initial sess)) as [[[]|e] st] eqn:Hv;
    try discriminate.
  intros [= <- <-].
  pose proof (validate_outcome super_validate form (initial sess)) as Hout.
  rewrite Hv in Hout.
  destruct Hout as (Hrules & _ & _ & geo_data & lat & lon & Hfetch & Hacc & Hsess).
  split; [reflexivity |]. split; [reflexivity |]. split; [exact Hrules |].
  split; [apply Hrules |].
  exists geo_data, lat, lon. split; [exact Hfetch |]. split; [exact Hacc |].
  simpl in *. rewrite Hsess. reflexivity.
Qed.

(** X23: after a redirect the results handler finds the location: it asks for the
    forecast of the stored coordinates under the stored thresholds and never
    renders the location error. *)
Theorem home_then_results (super_validate is_submitted : bool)
    (form : FormData) (sess : Session) (endpoint : string) (st' : St)
    (strptime : string -> option datetime) (today : date)
    (forecast_api : float -> float -> option string -> option Response)
    (API_KEY : option string) :
  home strip lower us_cities COUNTRY_TO_ISO float_of_str geocoder super_validate is_submitted
       form sess = (Ret (Redirect endpoint), st') ->
  exists lat lon,
    s_lat (session st') = Some lat /\ s_lon (session st') = Some lon
    /\ forall rendered,
         results strptime today forecast_api API_KEY (session st') = Ret rendered ->
         (get_forecast strptime today forecast_api
                       (Some (user_hot_data form)) (Some (user_cold_data form))
                       5 lat lon API_KEY = Ret None
          /\ error rendered = Some "Could not fetch weather data. Try again later.")
         \/ (exists days,
               get_forecast strptime today forecast_api
                            (Some (user_hot_data form)) (Some (user_cold_data form))
                            5 lat lon API_KEY = Ret (Some days)
               /\ error rendered = None
               /\ exists w, weather rendered = Some w /\ wd_forecast w = days).
Proof.
  unfold home.
  destruct is_submitted; [| discriminate].
  destruct (validate _ _ _ _ _ _ super_validate form (initial sess)) as [[[]|e] st] eqn:Hv;
    try discriminate.
  intros [= <- <-].
  pose proof (validate_outcome super_validate form (initial sess)) as Hout.
  rewrite Hv in Hout. destruct Hout as (_ & _ & _ & _ & lat & lon & _ & _ & Hsess).
  exists lat, lon. simpl in *. rewrite Hsess. simpl.
  split; [reflexivity |]. split; [reflexivity |].
  intros rendered. unfold results. simpl.
  destruct (get_forecast _ _ _ _ _ 5 lat lon API_KEY) as [[days|]|e']; simpl;
    [| | discriminate].
  - intros [= <-]. right. exists days. simpl. eauto.
  - intros [= <-]. left. auto.
Qed.

(** X24: when the handler does not redirect, the thresholds in the session are
    not touched and of the location at most the latitude is written. *)
Theorem home_no_redirect (super_validate is_submitted : bool)
    (form : FormData) (sess : Session) :
  (forall endpoint,
      (home strip lower us_cities COUNTRY_TO_ISO float_of_str geocoder super_validate is_submitted
            form sess).1 <> Ret (Redirect endpoint)) ->
  at_most_latitude
    sess
    (session (home strip lower us_cities COUNTRY_TO_ISO float_of_str geocoder super_validate
                   is_submitted form sess).2).
Proof.
  unfold home. intros Hno.
  destruct is_submitted; [| now left].
  pose proof (validate_outcome super_validate form (initial sess)) as Hout.
  destruct (validate _ _ _ _ _ _ super_validate form (initial sess)) as [[[]|e] st];
    simpl in *.
  - exfalso. now apply (Hno "results").
  - now destruct Hout as (_ & _ & Hs).
  - now destruct Hout as (_ & _ & _ & Hs & _).
Qed.

End MoreQuizFacts.

(** ** Sample runs *)

Ltac sample_rules :=
  unfold rules_hold; cbv zeta;
  split; [reflexivity |]; split; [simpl; lia |];
  split; [intros Hc; vm_compute in Hc; discriminate | intros _; reflexivity].

Lemma get_activity_tips_nan_witness :
  Prim2SF PrimFloat.nan = S754_nan
  /\ get_activity_tips PrimFloat.nan "Light Rain" (Some 85) (Some 40)
     = "Comfortable for outdoor activities" :: condition_tips (Concrete.lower "Light Rain").
Proof.
  assert (Prim2SF PrimFloat.nan = S754_nan) as H by (vm_compute; reflexivity).
  split; [exact H |].
  exact (get_activity_tips_nan PrimFloat.nan "Light Rain" (Some 85) (Some 40) H).
Defined.

Lemma get_forecast_distinct_dates_witness :
  get_forecast Concrete.strptime Scenario.today (Scenario.serves Scenario.week)
               (Some 85) (Some 40) 5 Scenario.lat Scenario.lon None
  = Ret (Some Scenario.week_forecast)
  /\ NoDup (fd_date <$> Scenario.week_forecast)
  /\ (Scenario.today ∉ (fd_date <$> Scenario.week_forecast))
  /\ Z.of_nat (length Scenario.week_forecast) <= Z.max 1 5.
Proof.
  assert (get_forecast Concrete.strptime Scenario.today (Scenario.serves Scenario.week)
            (Some 85) (Some 40) 5 Scenario.lat Scenario.lon None
          = Ret (Some Scenario.week_forecast)) as Hget by (vm_compute; reflexivity).
  split; [exact Hget |].
  exact (get_forecast_distinct_dates Concrete.strptime Scenario.today
           (Scenario.serves Scenario.week) (Some 85) (Some 40) 5
           Scenario.lat Scenario.lon None Scenario.week_forecast Hget).
Defined.

Lemma get_forecast_tips_witness :
  get_forecast Concrete.strptime Scenario.today (Scenario.serves Scenario.tomorrow_only)
               (Some 85) (Some 40) 5 Scenario.lat Scenario.lon None
  = Ret (Some [Scenario.tomorrow_day])
  /\ Scenario.tomorrow_day ∈ [Scenario.tomorrow_day]
  /\ exists s, fd_description Scenario.tomorrow_day = JStr s
               /\ fd_tips Scenario.tomorrow_day
                  = get_activity_tips (fd_temp_f Scenario.tomorrow_day) s
                                      (Some 85) (Some 40).
Proof.
  assert (get_forecast Concrete.strptime Scenario.today
            (Scenario.serves Scenario.tomorrow_only)
            (Some 85) (Some 40) 5 Scenario.lat Scenario.lon None
          = Ret (Some [Scenario.tomorrow_day])) as Hget by (vm_compute; reflexivity).
  assert (Scenario.tomorrow_day ∈ [Scenario.tomorrow_day]) as Hin
    by (apply elem_of_cons; now left).
  split; [exact Hget |]. split; [exact Hin |].
  exact (get_forecast_tips Concrete.strptime Scenario.today
           (Scenario.serves Scenario.tomorrow_only) (Some 85) (Some 40) 5
           Scenario.lat Scenario.lon None [Scenario.tomorrow_day] Scenario.tomorrow_day
           Hget Hin).
Defined.

Lemma get_forecast_ignores_rest_witness :
  1 <= 2
  /\ fetch_json (Scenario.serves
                   (JObj [("list", JList (Scenario.two_days ++ Scenario.junk))])
                   Scenario.lat Scenario.lon None)
     = Some (JObj [("list", JList (Scenario.two_days ++ Scenario.junk))])
  /\ assoc "list" [("list", JList (Scenario.two_days ++ Scenario.junk))]
     = Some (JList (Scenario.two_days ++ Scenario.junk))
  /\ Forall2 (dated_by Concrete.strptime (Some 85) (Some 40))
             Scenario.two_days Scenario.two_days_dated
  /\ 2 <= Z.of_nat (length (first_per_date [Scenario.today] Scenario.two_days_dated))
  /\ get_forecast Concrete.strptime Scenario.today
       (Scenario.serves (JObj [("list", JList (Scenario.two_days ++ Scenario.junk))]))
       (Some 85) (Some 40) 2 Scenario.lat Scenario.lon None
     = Ret (Some (values (take (Z.to_nat 2)
                                (first_per_date [Scenario.today]
                                                Scenario.two_days_dated)))).
Proof.
  assert (1 <= 2) as H1 by lia.
  assert (fetch_json (Scenario.serves
                        (JObj [("list", JList (Scenario.two_days ++ Scenario.junk))])
                        Scenario.lat Scenario.lon None)
          = Some (JObj [("list", JList (Scenario.two_days ++ Scenario.junk))])) as H2
    by reflexivity.
  assert (assoc "list" [("list", JList (Scenario.two_days ++ Scenario.junk))]
          = Some (JList (Scenario.two_days ++ Scenario.junk))) as H3 by reflexivity.
  assert (Forall2 (dated_by Concrete.strptime (Some 85) (Some 40))
            Scenario.two_days Scenario.two_days_dated) as H4
    by (repeat constructor; vm_compute; reflexivity).
  assert (2 <= Z.of_nat (length (first_per_date [Scenario.today]
                                                Scenario.two_days_dated))) as H5
    by (vm_compute; discriminate).
  split; [exact H1 |]. split; [exact H2 |]. split; [exact H3 |].
  split; [exact H4 |]. split; [exact H5 |].
  exact (get_forecast_ignores_rest Concrete.strptime Scenario.today
           (Scenario.serves (JObj [("list", JList (Scenario.two_days ++ Scenario.junk))]))
           (Some 85) (Some 40) 2 Scenario.lat Scenario.lon None
           [("list", JList (Scenario.two_days ++ Scenario.junk))]
           Scenario.two_days Scenario.junk Scenario.two_days_dated H1 H2 H3 H4 H5).
Defined.

Lemma get_forecast_today_only_witness :
  fetch_json (Scenario.serves (JObj [("list", JList Scenario.today_entries)])
                              Scenario.lat Scenario.lon None)
  = Some (JObj [("list", JList Scenario.today_entries)])
  /\ assoc "list" [("list", JList Scenario.today_entries)]
     = Some (JList Scenario.today_entries)
  /\ Forall (fun e => entry_date Concrete.strptime e = Ret Scenario.today)
            Scenario.today_entries
  /\ get_forecast Concrete.strptime Scenario.today
       (Scenario.serves (JObj [("list", JList Scenario.today_entries)]))
       (Some 85) (Some 40) 5 Scenario.lat Scenario.lon None
     = Ret (Some []).
Proof.
  assert (fetch_json (Scenario.serves (JObj [("list", JList Scenario.today_entries)])
                                      Scenario.lat Scenario.lon None)
          = Some (JObj [("list", JList Scenario.today_entries)])) as H1 by reflexivity.
  assert (assoc "list" [("list", JList Scenario.today_entries)]
          = Some (JList Scenario.today_entries)) as H2 by reflexivity.
  assert (Forall (fun e => entry_date Concrete.strptime e = Ret Scenario.today)
                 Scenario.today_entries) as H3
    by (repeat constructor; vm_compute; reflexivity).
  split; [exact H1 |]. split; [exact H2 |]. split; [exact H3 |].
  exact (get_forecast_today_only Concrete.strptime Scenario.today
           (Scenario.serves (JObj [("list", JList Scenario.today_entries)]))
           (Some 85) (Some 40) 5 Scenario.lat Scenario.lon None
           [("list", JList Scenario.today_entries)] Scenario.today_entries H1 H2 H3).
Defined.

Lemma results_unavailable_witness :
  s_lat Scenario.paris = Some Scenario.lat
  /\ s_lon Scenario.paris = Some Scenario.lon
  /\ fetch_json (Scenario.down Scenario.lat Scenario.lon None) = None
  /\ results Concrete.strptime Scenario.today Scenario.down None Scenario.paris
     = Ret {| weather := None; ctx_user_hot := None; ctx_user_cold := None;
              error := Some "Could not fetch weather data. Try again later." |}.
Proof.
  assert (s_lat Scenario.paris = Some Scenario.lat) as H1 by reflexivity.
  assert (s_lon Scenario.paris = Some Scenario.lon) as H2 by reflexivity.
  assert (fetch_json (Scenario.down Scenario.lat Scenario.lon None) = None) as H3
    by reflexivity.
  split; [exact H1 |]. split; [exact H2 |]. split; [exact H3 |].
  exact (results_unavailable Concrete.strptime Scenario.today Scenario.down None
           Scenario.paris Scenario.lat Scenario.lon H1 H2 H3).
Defined.

Lemma results_well_formed_witness :
  s_lat Scenario.paris = Some Scenario.lat
  /\ s_lon Scenario.paris = Some Scenario.lon
  /\ fetch_json (Scenario.serves Scenario.week Scenario.lat Scenario.lon None)
     = Some Scenario.week
  /\ well_formed_payload Concrete.strptime Scenario.week = true
  /\ exists days,
      results Concrete.strptime Scenario.today (Scenario.serves Scenario.week) None
              Scenario.paris
      = Ret {| weather := Some {| wd_state := Some ""; wd_city := Some "Paris";
                                  wd_country := Some "France"; wd_forecast := days |};
               ctx_user_hot := Some 85; ctx_user_cold := Some 40; error := None |}
      /\ (length days <= 5)%nat
      /\ forall fd, fd ∈ days ->
           exists s, fd_description fd = JStr s
                     /\ fd_tips fd = get_activity_tips (fd_temp_f fd) s
                                                       (Some 85) (Some 40).
Proof.
  assert (s_lat Scenario.paris = Some Scenario.lat) as H1 by reflexivity.
  assert (s_lon Scenario.paris = Some Scenario.lon) as H2 by reflexivity.
  assert (fetch_json (Scenario.serves Scenario.week Scenario.lat Scenario.lon None)
          = Some Scenario.week) as H3 by reflexivity.
  assert (well_formed_payload Concrete.strptime Scenario.week = true) as H4
    by (vm_compute; reflexivity).
  split; [exact H1 |]. split; [exact H2 |]. split; [exact H3 |]. split; [exact H4 |].
  exact (results_well_formed Concrete.strptime Scenario.today
           (Scenario.serves Scenario.week) None Scenario.paris
           Scenario.lat Scenario.lon Scenario.week H1 H2 H3 H4).
Defined.

Lemma validate_geocoder_unreachable_witness :
  rules_hold Concrete.strip Scenario.us_cities true Scenario.paris_form
  /\ fetch_json (Scenario.unreachable "Paris, France") = None
  /\ validate Concrete.strip Concrete.lower Scenario.us_cities Scenario.COUNTRY_TO_ISO
      Concrete.float_of_str
              Scenario.unreachable true Scenario.paris_form (initial empty_session)
     = (Ret false,
        with_city_error (with_request (initial empty_session) "Paris, France")
          "Error validating location. Please try again.").
Proof.
  assert (rules_hold Concrete.strip Scenario.us_cities true Scenario.paris_form) as H1 by
      sample_rules.
  assert (fetch_json (Scenario.unreachable "Paris, France") = None) as H2 by reflexivity.
  split; [exact H1 |]. split; [exact H2 |].
  exact (validate_geocoder_unreachable Concrete.strip Concrete.lower Scenario.us_cities
      Scenario.COUNTRY_TO_ISO
           Concrete.float_of_str Scenario.unreachable Scenario.paris_form
           (initial empty_session) H1 H2).
Defined.

Lemma validate_place_not_found_witness :
  rules_hold Concrete.strip Scenario.us_cities true Scenario.paris_form
  /\ fetch_json (Scenario.finds [] "Paris, France") = Some (JList [])
  /\ truthy (JList []) = false
  /\ validate Concrete.strip Concrete.lower Scenario.us_cities Scenario.COUNTRY_TO_ISO
      Concrete.float_of_str
              (Scenario.finds []) true Scenario.paris_form (initial empty_session)
     = (Ret false,
        with_city_error (with_request (initial empty_session) "Paris, France")
          "Paris not found in France.").
Proof.
  assert (rules_hold Concrete.strip Scenario.us_cities true Scenario.paris_form) as H1 by
      sample_rules.
  assert (fetch_json (Scenario.finds [] "Paris, France") = Some (JList [])) as H2
    by reflexivity.
  assert (truthy (JList []) = false) as H3 by reflexivity.
  split; [exact H1 |]. split; [exact H2 |]. split; [exact H3 |].
  exact (validate_place_not_found Concrete.strip Concrete.lower Scenario.us_cities
      Scenario.COUNTRY_TO_ISO
           Concrete.float_of_str (Scenario.finds []) Scenario.paris_form
           (initial empty_session) (JList []) H1 H2 H3).
Defined.

Lemma validate_answer_not_indexable_witness :
  rules_hold Concrete.strip Scenario.us_cities true Scenario.paris_form
  /\ fetch_json (Scenario.answers (JObj [("error", JStr "Unable to geocode")])
                                  "Paris, France")
     = Some (JObj [("error", JStr "Unable to geocode")])
  /\ truthy (JObj [("error", JStr "Unable to geocode")]) = true
  /\ getitem0 (JObj [("error", JStr "Unable to geocode")]) = Raise KeyError
  /\ validate Concrete.strip Concrete.lower Scenario.us_cities Scenario.COUNTRY_TO_ISO
      Concrete.float_of_str
              (Scenario.answers (JObj [("error", JStr "Unable to geocode")]))
              true Scenario.paris_form (initial empty_session)
     = (Raise KeyError, with_request (initial empty_session) "Paris, France").
Proof.
  assert (rules_hold Concrete.strip Scenario.us_cities true Scenario.paris_form) as H1 by
      sample_rules.
  assert (fetch_json (Scenario.answers (JObj [("error", JStr "Unable to geocode")])
                                       "Paris, France")
          = Some (JObj [("error", JStr "Unable to geocode")])) as H2 by reflexivity.
  assert (truthy (JObj [("error", JStr "Unable to geocode")]) = true) as H3
    by reflexivity.
  assert (getitem0 (JObj [("error", JStr "Unable to geocode")]) = Raise KeyError) as H4
    by reflexivity.
  split; [exact H1 |]. split; [exact H2 |]. split; [exact H3 |]. split; [exact H4 |].
  exact (validate_answer_not_indexable Concrete.strip Concrete.lower Scenario.us_cities
      Scenario.COUNTRY_TO_ISO
           Concrete.float_of_str
           (Scenario.answers (JObj [("error", JStr "Unable to geocode")]))
           Scenario.paris_form (initial empty_session)
           (JObj [("error", JStr "Unable to geocode")]) KeyError H1 H2 H3 H4).
Defined.

Lemma validate_us_city_not_listed_witness :
  Concrete.strip (country_data Scenario.nowhere_form) = USA
  /\ state_value Concrete.strip (state_data Scenario.nowhere_form) <> ""
  /\ user_cold_data Scenario.nowhere_form < user_hot_data Scenario.nowhere_form
  /\ ("Nowhereville" ∉ default [] (Scenario.us_cities !! "Texas"))
  /\ validate Concrete.strip Concrete.lower Scenario.us_cities Scenario.COUNTRY_TO_ISO
      Concrete.float_of_str
              (Scenario.finds Scenario.dallas_found) true Scenario.nowhere_form
              (initial empty_session)
     = (Ret false,
        with_city_error (initial empty_session)
          "Nowhereville is not a valid city in Texas. If it is, enter the nearest major city.").
Proof.
  assert (Concrete.strip (country_data Scenario.nowhere_form) = USA) as H1 by (vm_compute;
      reflexivity).
  assert (state_value Concrete.strip (state_data Scenario.nowhere_form) <> "") as H2
    by (vm_compute; discriminate).
  assert (user_cold_data Scenario.nowhere_form < user_hot_data Scenario.nowhere_form) as H3
    by (simpl; lia).
  assert ("Nowhereville" ∉ default [] (Scenario.us_cities !! "Texas")) as H4
    by (apply (bool_decide_unpack _); vm_compute; reflexivity).
  split; [exact H1 |]. split; [exact H2 |]. split; [exact H3 |]. split; [exact H4 |].
  exact (validate_us_city_not_listed Concrete.strip Concrete.lower Scenario.us_cities
      Scenario.COUNTRY_TO_ISO
           Concrete.float_of_str (Scenario.finds Scenario.dallas_found) Scenario.nowhere_form
           (initial empty_session) H1 H2 H3 H4).
Defined.

Lemma validate_country_without_code_witness :
  rules_hold Concrete.strip Scenario.us_cities true Scenario.kosovo_form
  /\ "Kosovo" <> USA
  /\ (Scenario.incomplete_catalog !! "Kosovo" = Some ""
      \/ Scenario.incomplete_catalog !! "Kosovo" = None)
  /\ fetch_json (Scenario.finds Scenario.pristina_found "Pristina, Kosovo")
     = Some (JList Scenario.pristina_found)
  /\ first_country_code (JList Scenario.pristina_found) = Some "xk"
  /\ validate Concrete.strip Concrete.lower Scenario.us_cities Scenario.incomplete_catalog
              Concrete.float_of_str (Scenario.finds Scenario.pristina_found) true
              Scenario.kosovo_form (initial empty_session)
     = (Ret false,
        with_city_error (with_request (initial empty_session) "Pristina, Kosovo")
          "Country validation configuration error.").
Proof.
  assert (rules_hold Concrete.strip Scenario.us_cities true Scenario.kosovo_form) as H1
    by sample_rules.
  assert ("Kosovo" <> USA) as H2 by discriminate.
  assert (Scenario.incomplete_catalog !! "Kosovo" = Some ""
          \/ Scenario.incomplete_catalog !! "Kosovo" = None) as H3
    by (left; vm_compute; reflexivity).
  assert (fetch_json (Scenario.finds Scenario.pristina_found "Pristina, Kosovo")
          = Some (JList Scenario.pristina_found)) as H4 by reflexivity.
  assert (first_country_code (JList Scenario.pristina_found) = Some "xk") as H5
    by reflexivity.
  split; [exact H1 |]. split; [exact H2 |]. split; [exact H3 |]. split; [exact H4 |].
  split; [exact H5 |].
  exact (validate_country_without_code Concrete.strip Concrete.lower Scenario.us_cities
           Scenario.incomplete_catalog Concrete.float_of_str
           (Scenario.finds Scenario.pristina_found) Scenario.kosovo_form
           (initial empty_session) (JList Scenario.pristina_found) "xk" H1 H2 H3 H4 H5).
Defined.

Lemma validate_success_witness :
  rules_hold Concrete.strip Scenario.us_cities true Scenario.paris_form
  /\ ("France" <> USA ->
      Scenario.COUNTRY_TO_ISO !! "France" = Some "fr" /\ "fr" <> "" /\ Concrete.lower "fr" = "fr")
  /\ fetch_json (Scenario.finds Scenario.paris_found "Paris, France")
     = Some (JList [JObj (Scenario.fields (Scenario.candidate Scenario.paris_coordinates
                                                     "Paris" "France" "fr"))])
  /\ first_country_code (JList Scenario.paris_found) = Some "fr"
  /\ assoc "lat" (Scenario.fields (Scenario.candidate Scenario.paris_coordinates
                                                      "Paris" "France" "fr"))
     = Some (JStr "48.8566")
  /\ float_ Concrete.float_of_str (JStr "48.8566") = Ret Scenario.lat
  /\ assoc "lon" (Scenario.fields (Scenario.candidate Scenario.paris_coordinates
                                                      "Paris" "France" "fr"))
     = Some (JStr "2.3522")
  /\ float_ Concrete.float_of_str (JStr "2.3522") = Ret Scenario.lon
  /\ validate Concrete.strip Concrete.lower Scenario.us_cities Scenario.COUNTRY_TO_ISO
      Concrete.float_of_str
              (Scenario.finds Scenario.paris_found) true Scenario.paris_form
              (initial empty_session)
     = (Ret true, Scenario.paris_validated).
Proof.
  assert (rules_hold Concrete.strip Scenario.us_cities true Scenario.paris_form) as H1 by
      sample_rules.
  assert ("France" <> USA ->
          Scenario.COUNTRY_TO_ISO !! "France" = Some "fr" /\ "fr" <> ""
          /\ Concrete.lower "fr" = "fr") as H2
    by (intros _; split; [vm_compute; reflexivity | split; [discriminate | reflexivity]]).
  assert (fetch_json (Scenario.finds Scenario.paris_found "Paris, France")
          = Some (JList [JObj (Scenario.fields (Scenario.candidate Scenario.paris_coordinates
                                                          "Paris" "France" "fr"))])) as H3
    by reflexivity.
  assert (first_country_code (JList Scenario.paris_found) = Some "fr") as H4
    by reflexivity.
  assert (float_ Concrete.float_of_str (JStr "48.8566") = Ret Scenario.lat) as H5
    by (vm_compute; reflexivity).
  assert (float_ Concrete.float_of_str (JStr "2.3522") = Ret Scenario.lon) as H6
    by (vm_compute; reflexivity).
  split; [exact H1 |]. split; [exact H2 |]. split; [exact H3 |]. split; [exact H4 |].
  split; [reflexivity |]. split; [exact H5 |]. split; [reflexivity |].
  split; [exact H6 |].
  exact (validate_success Concrete.strip Concrete.lower Scenario.us_cities Scenario.COUNTRY_TO_ISO
           Concrete.float_of_str (Scenario.finds Scenario.paris_found)
           Scenario.paris_form (initial empty_session)
           (Scenario.fields (Scenario.candidate Scenario.paris_coordinates "Paris" "France" "fr"))
           [] "fr" "fr" (JStr "48.8566") (JStr "2.3522") Scenario.lat Scenario.lon
           H1 H2 H3 H4 eq_refl H5 eq_refl H6).
Defined.

Lemma validate_latitude_raises_witness :
  rules_hold Concrete.strip Scenario.us_cities true Scenario.paris_form
  /\ ("France" <> USA ->
      Scenario.COUNTRY_TO_ISO !! "France" = Some "fr" /\ "fr" <> "" /\ Concrete.lower "fr" = "fr")
  /\ fetch_json (Scenario.finds Scenario.paris_null_latitude "Paris, France")
     = Some (JList Scenario.paris_null_latitude)
  /\ first_country_code (JList Scenario.paris_null_latitude) = Some "fr"
  /\ assoc "lat" (Scenario.fields
                    (Scenario.candidate [("lat", JNull); ("lon", JStr "2.3522")]
                                        "Paris" "France" "fr"))
     = Some JNull
  /\ float_ Concrete.float_of_str JNull = Raise TypeError
  /\ TypeError <> ValueError
  /\ validate Concrete.strip Concrete.lower Scenario.us_cities Scenario.COUNTRY_TO_ISO
      Concrete.float_of_str
              (Scenario.finds Scenario.paris_null_latitude) true Scenario.paris_form
              (initial empty_session)
     = (Raise TypeError, with_request (initial empty_session) "Paris, France").
Proof.
  assert (rules_hold Concrete.strip Scenario.us_cities true Scenario.paris_form) as H1 by
      sample_rules.
  assert ("France" <> USA ->
          Scenario.COUNTRY_TO_ISO !! "France" = Some "fr" /\ "fr" <> ""
          /\ Concrete.lower "fr" = "fr") as H2
    by (intros _; split; [vm_compute; reflexivity | split; [discriminate | reflexivity]]).
  assert (fetch_json (Scenario.finds Scenario.paris_null_latitude "Paris, France")
          = Some (JList Scenario.paris_null_latitude)) as H3 by reflexivity.
  assert (first_country_code (JList Scenario.paris_null_latitude) = Some "fr") as H4
    by reflexivity.
  assert (float_ Concrete.float_of_str JNull = Raise TypeError) as H5 by reflexivity.
  assert (TypeError <> ValueError) as H6 by discriminate.
  split; [exact H1 |]. split; [exact H2 |]. split; [exact H3 |]. split; [exact H4 |].
  split; [reflexivity |]. split; [exact H5 |]. split; [exact H6 |].
  exact (validate_latitude_raises Concrete.strip Concrete.lower Scenario.us_cities
      Scenario.COUNTRY_TO_ISO
           Concrete.float_of_str (Scenario.finds Scenario.paris_null_latitude)
           Scenario.paris_form (initial empty_session)
           (Scenario.fields (Scenario.candidate [("lat", JNull); ("lon", JStr "2.3522")]
                                       "Paris" "France" "fr"))
           [] "fr" "fr" JNull TypeError H1 H2 H3 H4 eq_refl H5 H6).
Defined.

Lemma validate_true_sound_witness :
  validate Concrete.strip Concrete.lower Scenario.us_cities Scenario.COUNTRY_TO_ISO
           Concrete.float_of_str (Scenario.finds Scenario.paris_found) true
           Scenario.paris_form (initial empty_session)
  = (Ret true, Scenario.paris_validated)
  /\ rules_hold Concrete.strip Scenario.us_cities true Scenario.paris_form
  /\ errors Scenario.paris_validated = errors (initial empty_session)
  /\ requests Scenario.paris_validated
     = requests (initial empty_session) ++ ["Paris, France"]
  /\ exists geo_data lat lon,
      fetch_json (Scenario.finds Scenario.paris_found "Paris, France") = Some geo_data
      /\ accepted Concrete.strip Concrete.lower Scenario.COUNTRY_TO_ISO Concrete.float_of_str
                  Scenario.paris_form geo_data lat lon
      /\ session Scenario.paris_validated
         = located lat lon "Paris" "France" "" (session (initial empty_session)).
Proof.
  assert (validate Concrete.strip Concrete.lower Scenario.us_cities Scenario.COUNTRY_TO_ISO
            Concrete.float_of_str (Scenario.finds Scenario.paris_found) true
            Scenario.paris_form (initial empty_session)
          = (Ret true, Scenario.paris_validated)) as H by (vm_compute; reflexivity).
  split; [exact H |].
  exact (validate_true_sound Concrete.strip Concrete.lower Scenario.us_cities
           Scenario.COUNTRY_TO_ISO Concrete.float_of_str
           (Scenario.finds Scenario.paris_found) true
           Scenario.paris_form (initial empty_session) Scenario.paris_validated H).
Defined.

Lemma validate_failure_session_witness :
  (validate Concrete.strip Concrete.lower Scenario.us_cities Scenario.COUNTRY_TO_ISO
      Concrete.float_of_str
            (Scenario.finds []) true Scenario.paris_form (initial Scenario.paris)).1
  <> Ret true
  /\ at_most_latitude
       Scenario.paris
       (session (validate Concrete.strip Concrete.lower Scenario.us_cities Scenario.COUNTRY_TO_ISO
                          Concrete.float_of_str (Scenario.finds []) true
                          Scenario.paris_form (initial Scenario.paris)).2).
Proof.
  assert ((validate Concrete.strip Concrete.lower Scenario.us_cities Scenario.COUNTRY_TO_ISO
      Concrete.float_of_str
             (Scenario.finds []) true Scenario.paris_form (initial Scenario.paris)).1
          <> Ret true) as H by (vm_compute; discriminate).
  split; [exact H |].
  exact (validate_failure_session Concrete.strip Concrete.lower Scenario.us_cities
      Scenario.COUNTRY_TO_ISO
           Concrete.float_of_str (Scenario.finds []) true Scenario.paris_form
           (initial Scenario.paris) H).
Defined.


Lemma home_redirect_complete_witness :
  home Concrete.strip Concrete.lower Scenario.us_cities Scenario.COUNTRY_TO_ISO
       Concrete.float_of_str (Scenario.finds Scenario.paris_found) true true
       Scenario.paris_form empty_session
  = (Ret (Redirect "results"), Scenario.redirected)
  /\ "results" = "results"
  /\ true = true
  /\ rules_hold Concrete.strip Scenario.us_cities true Scenario.paris_form
  /\ 40 < 85
  /\ exists geo_data lat lon,
      fetch_json (Scenario.finds Scenario.paris_found "Paris, France") = Some geo_data
      /\ accepted Concrete.strip Concrete.lower Scenario.COUNTRY_TO_ISO Concrete.float_of_str
                  Scenario.paris_form geo_data lat lon
      /\ session Scenario.redirected
         = {| s_lat := Some lat; s_lon := Some lon; s_city := Some "Paris";
              s_country := Some "France"; s_state := Some "";
              s_user_hot := Some 85; s_user_cold := Some 40 |}.
Proof.
  assert (home Concrete.strip Concrete.lower Scenario.us_cities Scenario.COUNTRY_TO_ISO
            Concrete.float_of_str (Scenario.finds Scenario.paris_found) true true
            Scenario.paris_form empty_session
          = (Ret (Redirect "results"), Scenario.redirected)) as H
    by (vm_compute; reflexivity).
  split; [exact H |].
  exact (home_redirect_complete Concrete.strip Concrete.lower Scenario.us_cities
           Scenario.COUNTRY_TO_ISO Concrete.float_of_str
           (Scenario.finds Scenario.paris_found) true true
           Scenario.paris_form empty_session "results" Scenario.redirected H).
Defined.

Lemma home_then_results_witness :
  home Concrete.strip Concrete.lower Scenario.us_cities Scenario.COUNTRY_TO_ISO
      Concrete.float_of_str
       (Scenario.finds Scenario.paris_found) true true Scenario.paris_form empty_session
  = (Ret (Redirect "results"), Scenario.redirected)
  /\ exists lat lon,
      s_lat (session Scenario.redirected) = Some lat /\ s_lon (session Scenario.redirected) =
          Some lon
      /\ forall rendered,
           results Concrete.strptime Scenario.today (Scenario.serves Scenario.week) None
                   (session Scenario.redirected) = Ret rendered ->
           (get_forecast Concrete.strptime Scenario.today (Scenario.serves Scenario.week)
                         (Some 85) (Some 40) 5 lat lon None = Ret None
            /\ error rendered = Some "Could not fetch weather data. Try again later.")
           \/ (exists days,
                 get_forecast Concrete.strptime Scenario.today
                              (Scenario.serves Scenario.week)
                              (Some 85) (Some 40) 5 lat lon None = Ret (Some days)
                 /\ error rendered = None
                 /\ exists w, weather rendered = Some w /\ wd_forecast w = days).
Proof.
  assert (home Concrete.strip Concrete.lower Scenario.us_cities Scenario.COUNTRY_TO_ISO
      Concrete.float_of_str
            (Scenario.finds Scenario.paris_found) true true Scenario.paris_form
            empty_session
          = (Ret (Redirect "results"), Scenario.redirected)) as H by (vm_compute; reflexivity).
  split; [exact H |].
  exact (home_then_results Concrete.strip Concrete.lower Scenario.us_cities
      Scenario.COUNTRY_TO_ISO
           Concrete.float_of_str (Scenario.finds Scenario.paris_found) true true
           Scenario.paris_form empty_session "results" Scenario.redirected
           Concrete.strptime Scenario.today (Scenario.serves Scenario.week) None H).
Defined.

Lemma home_no_redirect_witness :
  (forall endpoint,
      (home Concrete.strip Concrete.lower Scenario.us_cities Scenario.COUNTRY_TO_ISO
          Concrete.float_of_str
            (Scenario.finds []) true true Scenario.paris_form Scenario.paris).1
      <> Ret (Redirect endpoint))
  /\ at_most_latitude
       Scenario.paris
       (session (home Concrete.strip Concrete.lower Scenario.us_cities Scenario.COUNTRY_TO_ISO
           Concrete.float_of_str
                      (Scenario.finds []) true true Scenario.paris_form
                      Scenario.paris).2).
Proof.
  assert (forall endpoint,
             (home Concrete.strip Concrete.lower Scenario.us_cities Scenario.COUNTRY_TO_ISO
                 Concrete.float_of_str
                   (Scenario.finds []) true true Scenario.paris_form Scenario.paris).1
             <> Ret (Redirect endpoint)) as H
    by (intros endpoint; vm_compute; discriminate).
  split; [exact H |].
  exact (home_no_redirect Concrete.strip Concrete.lower Scenario.us_cities Scenario.COUNTRY_TO_ISO
           Concrete.float_of_str (Scenario.finds []) true true Scenario.paris_form
           Scenario.paris H).
Defined.
